(** * Pawsonality: retrieval engine and response composer

    A shallow embedding of the file-based vector store
    ([app/services/vector_db_simple.py]), the simple RAG service
    ([app/services/rag_simple.py]), the chatbot service
    ([app/services/chatbot.py]) and the OpenRouter message formatter
    ([app/services/openrouter.py]).

    Modelling choices:
    - Python exceptions are the [Raise] case of a small error monad [result];
    - numpy float64 arithmetic is idealised as real numbers [R]; embedding
      vectors are [list R], the embedding matrix a list of rows;
    - documents are records with the fields of the stored schema
      (id, pawna_code, category, title, content); any further dictionary
      keys live in [doc_extra], read by [doc_get] like [dict.get];
    - Python keyword-argument binding is modelled by [check_call]. *)

From Stdlib Require Import String Ascii List ZArith Reals Lra Lia Sorted.
Import ListNotations.
Open Scope string_scope.
Set Warnings "-register-all".

(* ------------------------------------------------------------------ *)
(** ** Exceptions and the error monad *)

Inductive exn : Type :=
| TypeError (msg : string)
| ValueError (msg : string)
| KeyError (key : string)
| IndexError (msg : string)
| AttributeError (msg : string)
| UnpicklingError (msg : string)
| RuntimeError (msg : string).

(** [str(e)] *)
Definition exn_str (e : exn) : string :=
  match e with
  | TypeError m | ValueError m | IndexError m | AttributeError m
  | UnpicklingError m | RuntimeError m => m
  | KeyError k => "'" ++ k ++ "'"
  end.

Inductive result (A : Type) : Type :=
| Ok (a : A)
| Raise (e : exn).
Arguments Ok {A} a.
Arguments Raise {A} e.

Definition bind {A B} (m : result A) (k : A -> result B) : result B :=
  match m with
  | Ok a => k a
  | Raise e => Raise e
  end.

Notation "x <- m ;; k" := (bind m (fun x => k))
  (at level 61, m at next level, right associativity).

Definition is_raise {A} (m : result A) : bool :=
  match m with Ok _ => false | Raise _ => true end.

(** [try: m  except Exception as e: handler(e)] *)
Definition try_except {A} (m : result A) (handler : exn -> result A) : result A :=
  match m with
  | Ok a => Ok a
  | Raise e => handler e
  end.

(** [xs[i]] for a Python list or a 1-D numpy array, [0 <= i]. *)
Definition py_index {A} (xs : list A) (i : nat) : result A :=
  match nth_error xs i with
  | Some x => Ok x
  | None => Raise (IndexError "list index out of range")
  end.

(** [xs[:k]] for a Python int [k] (a negative [k] counts from the end). *)
Definition py_slice_to {A} (xs : list A) (k : Z) : list A :=
  if (0 <=? k)%Z then firstn (Z.to_nat k) xs
  else firstn (Z.to_nat (Z.of_nat (length xs) + k)) xs.

(** [xs[i:]] for a Python int [i]. *)
Definition py_slice_from {A} (xs : list A) (i : Z) : list A :=
  if (0 <=? i)%Z then skipn (Z.to_nat i) xs
  else skipn (Z.to_nat (Z.of_nat (length xs) + i)) xs.

(** Truthiness of an [Optional[str]]: [None] and [""] are falsy. *)
Definition truthy_opt_str (s : option string) : bool :=
  match s with
  | None => false
  | Some x => negb (String.eqb x "")
  end.

(* ------------------------------------------------------------------ *)
(** ** Keyword-argument binding *)

(** A parameter of a Python function: its name and whether it has a default. *)
Record param := mk_param { p_name : string; p_has_default : bool }.

Definition mem_str (k : string) (ks : list string) : bool :=
  existsb (String.eqb k) ks.

(** Binding a call made with keyword arguments only ([f(a=.., b=..)]):
    an unknown keyword raises [TypeError]; so does a required parameter
    that receives no argument. *)
Definition check_call (fname : string) (params : list param) (kws : list string)
  : option exn :=
  match find (fun k => negb (mem_str k (map p_name params))) kws with
  | Some k =>
      Some (TypeError (fname ++ "() got an unexpected keyword argument '" ++ k ++ "'"))
  | None =>
      match find (fun p => (negb (p_has_default p) && negb (mem_str (p_name p) kws))%bool) params with
      | Some p =>
          Some (TypeError (fname ++ "() missing 1 required positional argument: '"
                           ++ p_name p ++ "'"))
      | None => None
      end
  end.

(** The call runs the callee's body only when binding succeeds. *)
Definition call_kw {A} (fname : string) (params : list param) (kws : list string)
  (body : unit -> result A) : result A :=
  match check_call fname params kws with
  | Some e => Raise e
  | None => body tt
  end.

(* ------------------------------------------------------------------ *)
(** ** Documents and the vector store ([vector_db_simple.py]) *)

Open Scope R_scope.

(** A stored document (a Python dict with the schema's keys). *)
Record document := mk_document {
  doc_id : Z;
  pawna_code : string;
  category : string;
  title : string;
  content : string;
  doc_extra : list (string * string)
}.

(** [doc.get(key)] *)
Definition doc_get (d : document) (key : string) : option string :=
  if String.eqb key "pawna_code" then Some (pawna_code d)
  else if String.eqb key "category" then Some (category d)
  else if String.eqb key "title" then Some (title d)
  else if String.eqb key "content" then Some (content d)
  else match find (fun kv => String.eqb (fst kv) key) (doc_extra d) with
       | Some kv => Some (snd kv)
       | None => None
       end.

(** A search result: [doc.copy()] with the key ['score'] added. *)
Record retrieved := mk_retrieved { r_doc : document; score : R }.

Definition vector := list R.
Definition matrix := list vector.

(** [SimpleVectorDB]: [db_path], [documents], [embeddings] ([None] or an
    N x D array, one row per document). *)
Record simple_vector_db := mk_db {
  db_path : string;
  documents : list document;
  embeddings : option matrix
}.

(** [SimpleVectorDB(db_path)] *)
Definition new_simple_vector_db (path : string) : simple_vector_db :=
  mk_db path [] None.

Fixpoint dot (u v : vector) : R :=
  match u, v with
  | x :: u', y :: v' => x * y + dot u' v'
  | _, _ => 0
  end.

(** [np.linalg.norm(v)] *)
Definition norm (v : vector) : R := sqrt (dot v v).

(** [v / c] elementwise *)
Definition vdiv (v : vector) (c : R) : vector := map (fun x => x / c) v.

(** [np.dot(M, v)]: numpy refuses misaligned shapes with [ValueError]. *)
Definition np_dot (m : matrix) (v : vector) : result (list R) :=
  if forallb (fun row => Nat.eqb (length row) (length v)) m
  then Ok (map (fun row => dot row v) m)
  else Raise (ValueError "shapes not aligned").

(** Lines 95-104: normalise the query and every row, then take the
    dot products.  Floats are modelled as real numbers, so rounding is
    not represented, and division by a zero norm gives 0 here where numpy
    gives NaN. *)
Definition cosine_similarities (emb : matrix) (query_embedding : vector)
  : result (list R) :=
  let query_norm := vdiv query_embedding (norm query_embedding) in
  let embeddings_norm := map (fun row => vdiv row (norm row)) emb in
  np_dot embeddings_norm query_norm.

(** [np.argsort(s)]: indices of [s] in ascending order of value.  numpy's
    default kind sorts short arrays (fewer than 17 entries) by insertion
    sort, which keeps equal values in index order; that is the sort
    modelled here.  On longer arrays numpy's order among equal values is
    unspecified, so the model fixes one of the orders the code may produce;
    only the score order of the result, and the two-entry tie of
    [search_ties_reversed], are relied upon. *)
Fixpoint insert_idx (s : list R) (i : nat) (l : list nat) : list nat :=
  match l with
  | [] => [i]
  | j :: l' =>
      if Rle_dec (nth i s 0) (nth j s 0) then i :: l
      else j :: insert_idx s i l'
  end.

Definition argsort (s : list R) : list nat :=
  fold_right (insert_idx s) [] (seq 0 (length s)).

(** Lines 125-131: the result loop over [top_indices]. *)
Fixpoint collect (fsims : list R) (fdocs : list document) (min_score : R)
  (idxs : list nat) : result (list retrieved) :=
  match idxs with
  | [] => Ok []
  | idx :: rest =>
      score <- py_index fsims idx ;;
      if Rle_dec min_score score then
        doc <- py_index fdocs idx ;;
        rs <- collect fsims fdocs min_score rest ;;
        Ok (mk_retrieved doc score :: rs)
      else collect fsims fdocs min_score rest
  end.

(** [[i for i, doc in enumerate(documents) if doc.get('dbti_code') == f]] *)
Definition filter_indices (docs : list document) (f : string) : list nat :=
  map fst (filter (fun p => match doc_get (snd p) "dbti_code" with
                            | Some c => String.eqb c f
                            | None => false
                            end)
                  (combine (seq 0 (length docs)) docs)).

(** [similarities[idxs]] (numpy fancy indexing) *)
Fixpoint take_indices (xs : list R) (idxs : list nat) : result (list R) :=
  match idxs with
  | [] => Ok []
  | i :: rest => x <- py_index xs i ;; ys <- take_indices xs rest ;; Ok (x :: ys)
  end.

(** Lines 121-133, once the candidates are fixed. *)
Definition rank (fsims : list R) (fdocs : list document) (top_k : Z)
  (min_score : R) : result (list retrieved) :=
  let top_indices := py_slice_to (rev (argsort fsims)) top_k in
  collect fsims fdocs min_score top_indices.

(** Placeholder for [nth] on indices known to be in range. *)
Definition dflt_doc : document := mk_document 0 "" "" "" "" [].

(** [SimpleVectorDB.search] *)
Definition search (db : simple_vector_db) (query_embedding : vector)
  (top_k : Z) (dbti_filter : option string) (min_score : R)
  : result (list retrieved) :=
  match embeddings db with
  | None => Ok []
  | Some emb =>
      if Nat.eqb (length (documents db)) 0 then Ok [] else
      similarities <- cosine_similarities emb query_embedding ;;
      match dbti_filter with
      | Some f =>
          if truthy_opt_str dbti_filter then
            let filtered_indices := filter_indices (documents db) f in
            match filtered_indices with
            | [] => Ok []
            | _ :: _ =>
                filtered_similarities <- take_indices similarities filtered_indices ;;
                let filtered_documents :=
                  map (fun i => nth i (documents db) dflt_doc)
                      filtered_indices in
                rank filtered_similarities filtered_documents top_k min_score
            end
          else rank similarities (documents db) top_k min_score
      | None => rank similarities (documents db) top_k min_score
      end
  end.

(* ------------------------------------------------------------------ *)
(** ** Prompts and message formatting ([prompts.py], [openrouter.py]) *)

(** A chat message [{"role": ..., "content": ...}]. *)
Record message := mk_message { role : string; msg_content : string }.

(** [PromptTemplates.get_system_prompt] *)
Definition get_system_prompt (pawna_type : option string) : string :=
  let base_prompt :=
"당신은 Pawsonality (Dog Personality Test) 전문가입니다.
반려견의 성격과 행동을 분석하고, 맞춤형 양육 가이드를 제공하는 AI 어시스턴트입니다.

## 역할
- 반려견의 Pawsonality 유형에 대해 설명
- 각 유형별 특성과 성격 소개
- 맞춤형 양육 방법 및 솔루션 제공
- 훈련, 산책, 사회화 등에 대한 조언

## 답변 스타일
- 친근하고 따뜻한 톤 사용
- 구체적이고 실용적인 조언 제공
- 이모지를 적절히 사용하여 읽기 쉽게 (🐾, 💡, 📌 등)
- 불필요하게 길지 않게, 핵심만 명확히

## 주의사항
- 수의학적 진단이나 치료는 수의사 상담 권장
- 참고 정보를 기반으로 정확한 답변 제공
- 모르는 내용은 솔직하게 인정" in
  match pawna_type with
  | Some p =>
      if truthy_opt_str pawna_type then
        base_prompt ++ "

## 사용자 정보
- 반려견 Pawna 유형: " ++ p ++ "
- 이 유형의 특성을 고려하여 맞춤형 답변 제공"
      else base_prompt
  | None => base_prompt
  end.

(** Decimal rendering of a Python [int] in an f-string. *)
Fixpoint digits_fuel (fuel n : nat) (acc : string) : string :=
  match fuel with
  | O => acc
  | S fuel' =>
      let acc' := String (ascii_of_nat (48 + n mod 10)) acc in
      if Nat.ltb n 10 then acc' else digits_fuel fuel' (n / 10) acc'
  end.

Definition string_of_nat (n : nat) : string := digits_fuel (S n) n "".

(** [enumerate(xs, start)] *)
Fixpoint enumerate_from {A} (start : nat) (xs : list A) : list (nat * A) :=
  match xs with
  | [] => []
  | x :: xs' => (start, x) :: enumerate_from (S start) xs'
  end.

(** [PromptTemplates.format_response_with_sources] *)
Definition format_response_with_sources (response : string) (sources : list string)
  : string :=
  match sources with
  | [] => response
  | _ :: _ =>
      response ++ "

---
📚 **참고 자료**:
" ++ String.concat "" (map (fun p => string_of_nat (fst p) ++ ". " ++ snd p ++ "
") (enumerate_from 1 sources))
  end.

(** [OpenRouterClient.format_messages] *)
Definition format_messages (system_prompt user_message : string)
  (context : option string) (conversation_history : option (list message))
  : list message :=
  let full_system_prompt :=
    if truthy_opt_str context then
      match context with
      | Some c => system_prompt ++ "

# 참고 정보
" ++ c
      | None => system_prompt
      end
    else system_prompt in
  let history :=
    match conversation_history with
    | Some h =>
        match h with
        | [] => []
        | _ :: _ => py_slice_from h (-5)%Z
        end
    | None => []
    end in
  [mk_message "system" full_system_prompt] ++ history
  ++ [mk_message "user" user_message].

(* ------------------------------------------------------------------ *)
(** ** The language-model gateway ([openrouter.py]) *)

(** The JSON body of a completion response. *)
Inductive json : Type :=
| JNull
| JBool (b : bool)
| JNum (z : Z)
| JStr (s : string)
| JList (l : list json)
| JObj (kvs : list (string * json)).

(** [j[k]] for a string key *)
Definition json_key (j : json) (k : string) : result json :=
  match j with
  | JObj kvs =>
      match find (fun kv => String.eqb (fst kv) k) kvs with
      | Some kv => Ok (snd kv)
      | None => Raise (KeyError k)
      end
  | JList _ => Raise (TypeError "list indices must be integers or slices, not str")
  | JStr _ => Raise (TypeError "string indices must be integers")
  | JNull => Raise (TypeError "'NoneType' object is not subscriptable")
  | JBool _ => Raise (TypeError "'bool' object is not subscriptable")
  | JNum _ => Raise (TypeError "'int' object is not subscriptable")
  end.

(** [j[i]] for an int index *)
Definition json_idx (j : json) (i : nat) : result json :=
  match j with
  | JList l => py_index l i
  | JObj _ => Raise (KeyError (string_of_nat i))
  | JStr s =>
      if Nat.ltb i (String.length s) then Ok (JStr (String.substring i 1 s))
      else Raise (IndexError "string index out of range")
  | JNull => Raise (TypeError "'NoneType' object is not subscriptable")
  | JBool _ => Raise (TypeError "'bool' object is not subscriptable")
  | JNum _ => Raise (TypeError "'int' object is not subscriptable")
  end.

(** [OpenRouterClient]: only its API key matters here. *)
Record openrouter_client := mk_client { api_key : option string }.

(** [OpenRouterClient.chat_completion] (non-streaming).  [post] is the
    HTTP exchange with the provider: [raise_for_status()] errors,
    timeouts and transport failures are its [Raise] results. *)
Definition chat_completion (client : openrouter_client)
  (post : list message -> result json) (messages : list message) : result json :=
  if truthy_opt_str (api_key client) then post messages
  else Raise (ValueError "OpenRouter API 키가 설정되지 않았습니다.").

(** [result['choices'][0]['message']['content']], then the [+] on it in
    [format_response_with_sources], which needs a [str] (the list of
    sources is non-empty on the branch that calls it). *)
Definition llm_reply_text (result_json : json) : result string :=
  c <- json_key result_json "choices" ;;
  c0 <- json_idx c 0 ;;
  msg <- json_key c0 "message" ;;
  txt <- json_key msg "content" ;;
  match txt with
  | JStr s => Ok s
  | _ => Raise (TypeError "unsupported operand type(s) for +")
  end.

(** [settings.OPENROUTER_MODEL] (its default). *)
Definition OPENROUTER_MODEL : string := "gpt4-mini".

(* ------------------------------------------------------------------ *)
(** ** The RAG service ([rag_simple.py]) *)

(** The dictionary returned by [generate_response_with_context]. *)
Record rag_response := mk_rag_response {
  response : string;
  context : string;
  sources : list string;
  num_sources : nat;
  confidence : R;
  llm_used : bool;
  model : option string
}.

(** [SimpleRAGService]: its flags, its vector store and its client. *)
Record rag_service := mk_rag_service {
  rag_initialized : bool;
  openrouter_available : bool;
  vector_db : simple_vector_db;
  openrouter : openrouter_client
}.

(** Parameters of the functions called with keyword arguments. *)
Definition search_params : list param :=
  [mk_param "query_embedding" false; mk_param "top_k" true;
   mk_param "dbti_filter" true; mk_param "min_score" true].

Definition retrieve_context_params : list param :=
  [mk_param "query" false; mk_param "top_k" true;
   mk_param "pawna_filter" true; mk_param "min_score" true].

Definition generate_response_with_context_params : list param :=
  [mk_param "query" false; mk_param "pawna_type" true;
   mk_param "top_k" true; mk_param "use_llm" true].

(** The sentinel of [format_context] for an empty list. *)
Definition no_context_sentinel : string := "관련 정보를 찾을 수 없습니다.".

(** [retrieved_docs[0]['score'] if retrieved_docs else 0.0] *)
Definition top_score (docs : list retrieved) : R :=
  match docs with
  | d :: _ => score d
  | [] => 0
  end.

(** Lines 208-209: the note on the Pawna type. *)
Definition type_note (pawna_type : option string) : string :=
  match pawna_type with
  | Some p => if truthy_opt_str pawna_type then "

🐾 " ++ p ++ " 유형에 대한 맞춤 정보입니다." else ""
  | None => ""
  end.

(** Lines 195-212: the search-only text. *)
Definition fallback_text (docs : list retrieved) (pawna_type : option string) : string :=
  match docs with
  | top_doc :: rest =>
      "💡 " ++ content (r_doc top_doc)
      ++ match rest with
         | [] => ""
         | _ :: _ => "

📚 추가 참고 정보:
" ++ String.concat "" (map (fun d => "• " ++ title (r_doc d) ++ "
") rest)
         end
      ++ type_note pawna_type
  | [] => "죄송합니다. 관련 정보를 찾지 못했습니다. 다른 질문을 해주시겠어요?"
  end.

Section RagService.

(** [f"{x:.2f}"] on a Python float. *)
Variable format_2f : R -> string.
(** The loaded sentence-transformer: [EmbeddingService.encode_text]. *)
Variable encode_text : string -> vector.
(** [SimpleRAGService.initialize] (loads the model and the store). *)
Variable rag_initialize : rag_service -> result rag_service.

(** One numbered block of [format_context]. *)
Definition format_block (i : nat) (d : retrieved) : string :=
  "[문서 " ++ string_of_nat i ++ "] " ++ title (r_doc d) ++ "
" ++ content (r_doc d) ++ "
" ++ "(Pawna: " ++ pawna_code (r_doc d) ++ ", 유사도: " ++ format_2f (score d) ++ ")".

(** [SimpleRAGService.format_context] *)
Definition format_context (retrieved_docs : list retrieved) : string :=
  match retrieved_docs with
  | [] => no_context_sentinel
  | _ :: _ =>
      String.concat "

" (map (fun p => format_block (fst p) (snd p)) (enumerate_from 1 retrieved_docs))
  end.

(** [SimpleRAGService.retrieve_context] *)
Definition retrieve_context (st : rag_service) (query : string) (top_k : Z)
  (pawna_filter : option string) (min_score : R) : result (list retrieved) :=
  st' <- (if rag_initialized st then Ok st else rag_initialize st) ;;
  let query_embedding := encode_text query in
  call_kw "SimpleVectorDB.search" search_params
    ["query_embedding"; "top_k"; "pawna_filter"; "min_score"]
    (fun _ => search (vector_db st') query_embedding top_k pawna_filter min_score).

(** Lines 148-187: the generator branch. *)
Definition llm_branch (st : rag_service) (post : list message -> result json)
  (query : string) (pawna_type : option string) (retrieved_docs : list retrieved)
  (ctx : string) : result rag_response :=
  let system_prompt := get_system_prompt pawna_type in
  let messages := format_messages system_prompt query (Some ctx) None in
  res <- chat_completion (openrouter st) post messages ;;
  llm_response <- llm_reply_text res ;;
  let resp := format_response_with_sources llm_response
                (map (fun d => title (r_doc d)) retrieved_docs) in
  Ok (mk_rag_response resp ctx (map (fun d => title (r_doc d)) retrieved_docs)
        (length retrieved_docs) (top_score retrieved_docs) true (Some OPENROUTER_MODEL)).

(** Lines 144-219 of [generate_response_with_context]: everything after
    [retrieve_context] has returned [retrieved_docs]. *)
Definition compose_response (st : rag_service) (post : list message -> result json)
  (query : string) (pawna_type : option string) (use_llm : bool)
  (retrieved_docs : list retrieved) : result rag_response :=
  let ctx := format_context retrieved_docs in
  let direct :=
    Ok (mk_rag_response (fallback_text retrieved_docs pawna_type) ctx
          (map (fun d => title (r_doc d)) retrieved_docs)
          (length retrieved_docs) (top_score retrieved_docs) false None) in
  if (use_llm && openrouter_available st
      && negb (Nat.eqb (length retrieved_docs) 0))%bool
  then try_except (llm_branch st post query pawna_type retrieved_docs ctx)
                  (fun _ => direct)
  else direct.

(** [SimpleRAGService.generate_response_with_context] (awaited). *)
Definition generate_response_with_context (st : rag_service)
  (post : list message -> result json) (query : string)
  (pawna_type : option string) (top_k : Z) (use_llm : bool) : result rag_response :=
  retrieved_docs <-
    call_kw "SimpleRAGService.retrieve_context" retrieve_context_params
      ["query"; "top_k"; "pawna_filter"]
      (fun _ => retrieve_context st query top_k pawna_type (3/10)) ;;
  compose_response st post query pawna_type use_llm retrieved_docs.

End RagService.

(* ------------------------------------------------------------------ *)
(** ** The chatbot service ([chatbot.py]) *)

(** The dictionary returned by [ChatbotService.generate_response]; the
    success dictionary has the key ["dbti_type"], the fallback one the
    key ["error"]. *)
Record chat_reply := mk_chat_reply {
  c_response : string;
  c_sources : list string;
  c_num_sources : nat;
  c_confidence : R;
  c_method : string;
  c_dbti_type : option (option string);
  c_error : option string
}.

(** [ChatbotService]: its flag, its RAG service and its client. *)
Record chatbot_service := mk_chatbot {
  cb_initialized : bool;
  cb_rag : rag_service;
  cb_llm : openrouter_client
}.

(** The reply of the [except] clause of [generate_response]. *)
Definition chat_fallback (e : exn) : chat_reply :=
  mk_chat_reply "죄송합니다. 일시적인 오류가 발생했습니다. 잠시 후 다시 시도해주세요."
    [] 0 0 "fallback" None (Some (exn_str e)).

Section Chatbot.

Variable encode_text : string -> vector.
Variable rag_initialize : rag_service -> result rag_service.
(** [ChatbotService.initialize] *)
Variable chatbot_initialize : chatbot_service -> result chatbot_service.

(** [ChatbotService.generate_response] (awaited).  Its generator branch
    starts with [PromptTemplates.create_conversation_messages], which
    [PromptTemplates] does not define; its search-only branch calls the
    coroutine function [generate_response_with_context] without [await]
    and subscripts the result. *)
Definition chatbot_generate_response (cb : chatbot_service) (user_query : string)
  (dbti_type : option string) (conversation_history : option (list message))
  (use_llm : bool) (llm_model : option string) : result chat_reply :=
  cb' <- (if cb_initialized cb then Ok cb else chatbot_initialize cb) ;;
  try_except
    (context_docs <-
       call_kw "SimpleRAGService.retrieve_context" retrieve_context_params
         ["query"; "top_k"; "dbti_filter"; "min_score"]
         (fun _ => retrieve_context encode_text rag_initialize (cb_rag cb')
                     user_query 3 dbti_type (3/10)) ;;
     rm <- (if (use_llm && truthy_opt_str (api_key (cb_llm cb')))%bool
            then Raise (AttributeError
                   "type object 'PromptTemplates' has no attribute 'create_conversation_messages'")
            else call_kw "SimpleRAGService.generate_response_with_context"
                   generate_response_with_context_params
                   ["query"; "dbti_type"; "top_k"]
                   (fun _ => Raise (TypeError "'coroutine' object is not subscriptable"))) ;;
     let response_text := fst rm in
     let method := snd rm in
     Ok (mk_chat_reply response_text (map (fun d => title (r_doc d)) context_docs)
           (length context_docs) (top_score context_docs) method
           (Some dbti_type) None))
    (fun e => Ok (chat_fallback e)).

End Chatbot.

(* ------------------------------------------------------------------ *)
(** ** Persistence ([SimpleVectorDB.save] / [load]) *)

(** The Python objects that reach the pickle file. *)
Inductive pyval : Type :=
| VNone
| VDocs (ds : list document)
| VEmb (e : option matrix)
| VDict (kvs : list (string * pyval)).

(** The bytes of a file: a pickle stream of an object, or anything else. *)
Inductive file_bytes : Type :=
| Pickled (v : pyval)
| Garbage (raw : list ascii).

(** [pickle.dump] / [pickle.load]: a pickle stream loads back as the
    object it was dumped from; other bytes make [pickle.load] raise. *)
Definition pickle_dump (v : pyval) : file_bytes := Pickled v.

Definition pickle_load (b : file_bytes) : result pyval :=
  match b with
  | Pickled v => Ok v
  | Garbage _ => Raise (UnpicklingError "invalid load key")
  end.

(** The file system: path to contents, [None] when the file is absent. *)
Definition filesystem := string -> option file_bytes.

Definition fs_write (fs : filesystem) (path : string) (b : file_bytes) : filesystem :=
  fun p => if String.eqb p path then Some b else fs p.

(** [data[key]] *)
Definition py_getitem (v : pyval) (key : string) : result pyval :=
  match v with
  | VDict kvs =>
      match find (fun kv => String.eqb (fst kv) key) kvs with
      | Some kv => Ok (snd kv)
      | None => Raise (KeyError key)
      end
  | VDocs _ => Raise (TypeError "list indices must be integers or slices, not str")
  | VEmb _ => Raise (IndexError "only integers, slices are valid indices")
  | VNone => Raise (TypeError "'NoneType' object is not subscriptable")
  end.

(** The typed store holds a document list and an optional matrix; a value
    of another type read from the file is refused here with [TypeError]. *)
Definition as_documents (v : pyval) : result (list document) :=
  match v with
  | VDocs ds => Ok ds
  | _ => Raise (TypeError "documents")
  end.

Definition as_embeddings (v : pyval) : result (option matrix) :=
  match v with
  | VEmb e => Ok e
  | VNone => Ok None
  | _ => Raise (TypeError "embeddings")
  end.

(** [SimpleVectorDB.save] *)
Definition save (db : simple_vector_db) (fs : filesystem) : filesystem :=
  let data := VDict [("documents", VDocs (documents db));
                     ("embeddings", VEmb (embeddings db))] in
  fs_write fs (db_path db) (pickle_dump data).

(** [SimpleVectorDB.load]: the returned flag and the store afterwards. *)
Definition load (db : simple_vector_db) (fs : filesystem)
  : result (bool * simple_vector_db) :=
  match fs (db_path db) with
  | None => Ok (false, db)
  | Some b =>
      data <- pickle_load b ;;
      dv <- py_getitem data "documents" ;;
      ds <- as_documents dv ;;
      ev <- py_getitem data "embeddings" ;;
      emb <- as_embeddings ev ;;
      Ok (true, mk_db (db_path db) ds emb)
  end.

(* ------------------------------------------------------------------ *)
(** ** The rest of the vector store ([vector_db_simple.py]) *)

(** [SimpleVectorDB.load] with the store object it leaves behind, also
    when it raises: [self.documents] is assigned before
    [data["embeddings"]] is read. *)
Definition load_state (db : simple_vector_db) (fs : filesystem)
  : simple_vector_db * result bool :=
  match fs (db_path db) with
  | None => (db, Ok false)
  | Some b =>
      match pickle_load b with
      | Raise e => (db, Raise e)
      | Ok data =>
          match bind (py_getitem data "documents") as_documents with
          | Raise e => (db, Raise e)
          | Ok ds =>
              let db1 := mk_db (db_path db) ds (embeddings db) in
              match bind (py_getitem data "embeddings") as_embeddings with
              | Raise e => (db1, Raise e)
              | Ok emb => (mk_db (db_path db) ds emb, Ok true)
              end
          end
      end
  end.

(** [SimpleVectorDB.insert_documents]: replace both fields, then [save]. *)
Definition insert_documents (db : simple_vector_db) (ds : list document)
  (emb : matrix) (fs : filesystem) : simple_vector_db * filesystem :=
  let db' := mk_db (db_path db) ds (Some emb) in
  (db', save db' fs).

(** The default path of [SimpleVectorDB()]. *)
Definition DEFAULT_DB_PATH : string := "data/processed/vector_db.pkl".

(** [get_simple_vector_db]: the module global [_simple_vector_db] is the
    first component.  The global is assigned before [load()] runs, so it
    keeps the object even when [load()] raises. *)
Definition get_simple_vector_db (g : option simple_vector_db) (fs : filesystem)
  : option simple_vector_db * result simple_vector_db :=
  match g with
  | Some db => (Some db, Ok db)
  | None =>
      let (db', r) := load_state (new_simple_vector_db DEFAULT_DB_PATH) fs in
      (Some db', bind r (fun _ => Ok db'))
  end.

(* ------------------------------------------------------------------ *)
(** ** The rest of the RAG service ([rag_simple.py]) *)

(** [SimpleRAGService.initialize]: the service object after the call and
    the outcome.  [load_model] is [self.embedding_service.load_model()];
    the store is the shared object, so what [load] did to it stays when
    [load] raises. *)
Definition rag_initialize_st (load_model : result unit) (fs : filesystem)
  (st : rag_service) : rag_service * result unit :=
  if rag_initialized st then (st, Ok tt) else
  match load_model with
  | Raise e => (st, Raise e)
  | Ok _ =>
      let (db', r) := load_state (vector_db st) fs in
      let st1 := mk_rag_service false (openrouter_available st) db' (openrouter st) in
      match r with
      | Raise e => (st1, Raise e)
      | Ok _ =>
          let avail := if truthy_opt_str (api_key (openrouter st)) then true
                       else openrouter_available st in
          (mk_rag_service true avail db' (openrouter st), Ok tt)
      end
  end.

(** The same call seen as a function from the service to the initialised
    service (the shape [retrieve_context] uses). *)
Definition rag_initialize_fn (load_model : result unit) (fs : filesystem)
  (st : rag_service) : result rag_service :=
  let (st', r) := rag_initialize_st load_model fs st in
  bind r (fun _ => Ok st').

(** [SimpleRAGService.search_by_pawna] ([code] is the parameter
    [pawna_code], renamed to keep the record field visible). *)
Definition search_by_pawna (load_model : result unit) (fs : filesystem)
  (st : rag_service) (code : string) (top_k : Z) : rag_service * result (list document) :=
  let (st', r) := if rag_initialized st then (st, Ok tt)
                  else rag_initialize_st load_model fs st in
  match r with
  | Raise e => (st', Raise e)
  | Ok _ =>
      let all_docs := filter (fun doc => String.eqb (pawna_code doc) code)
                             (documents (vector_db st')) in
      (st', Ok (py_slice_to all_docs top_k))
  end.

(* ------------------------------------------------------------------ *)
(** ** The chat endpoint ([routers/chat.py]) *)

(** [ChatResponse] without its timestamp. *)
Record chat_response := mk_chat_response {
  cr_message : string;
  cr_sources : list string;
  cr_confidence : R
}.

Definition chat_apology : string :=
  "죄송합니다. 일시적인 오류가 발생했습니다. 잠시 후 다시 시도해주세요.".

(** [chat(request, rag_service)]: the service call is made with the keyword
    [dbti_type]; the callee's body only runs when binding succeeds, and
    then no parameter receives [request.dbti_type], so [pawna_type] keeps
    its default. *)
Definition chat_endpoint (format_2f : R -> string) (encode_text : string -> vector)
  (rag_initialize : rag_service -> result rag_service) (st : rag_service)
  (post : list message -> result json) (message : string) (dbti_type : option string)
  : result chat_response :=
  try_except
    (rag_result <-
       call_kw "SimpleRAGService.generate_response_with_context"
         generate_response_with_context_params ["query"; "dbti_type"; "top_k"; "use_llm"]
         (fun _ => generate_response_with_context format_2f encode_text rag_initialize
                     st post message None 3 true) ;;
     Ok (mk_chat_response (response rag_result) (sources rag_result)
           (confidence rag_result)))
    (fun _ => Ok (mk_chat_response chat_apology [] 0)).

(* ------------------------------------------------------------------ *)
(** ** The rest of the chatbot service ([chatbot.py]) *)

(** [ChatbotService.initialize]: [get_simple_rag_service()] is the
    service held in [cb_rag], [get_openrouter_client()] the client held in
    [cb_llm]. *)
Definition chatbot_initialize_fn (load_model : result unit) (fs : filesystem)
  (cb : chatbot_service) : result chatbot_service :=
  if cb_initialized cb then Ok cb else
  let (rag', r) := rag_initialize_st load_model fs (cb_rag cb) in
  _ <- r ;;
  Ok (mk_chatbot true rag' (cb_llm cb)).

(** The dictionary returned by [explain_dbti_type] ([dbti_code] is absent
    from the one for an empty result). *)
Record explain_reply := mk_explain_reply {
  x_response : string;
  x_sources : list string;
  x_confidence : R;
  x_dbti_code : option string
}.

(** [self.rag_service.search_by_dbti]: [SimpleRAGService] defines
    [search_by_pawna] only. *)
Definition search_by_dbti_attr (st : rag_service)
  : result (string -> Z -> list document) :=
  Raise (AttributeError "'SimpleRAGService' object has no attribute 'search_by_dbti'").

(** [ChatbotService.explain_dbti_type] (awaited).  The generator branch
    starts with [PromptTemplates.create_dbti_explanation_prompt], which
    [PromptTemplates] does not define. *)
Definition chatbot_explain_dbti_type
  (chatbot_initialize : chatbot_service -> result chatbot_service)
  (cb : chatbot_service) (dbti_code : string) (use_llm : bool) : result explain_reply :=
  cb' <- (if cb_initialized cb then Ok cb else chatbot_initialize cb) ;;
  f <- search_by_dbti_attr (cb_rag cb') ;;
  let dbti_docs := f dbti_code 10%Z in
  match dbti_docs with
  | [] => Ok (mk_explain_reply (dbti_code ++ " 유형에 대한 정보를 찾을 수 없습니다.") [] 0 None)
  | _ :: _ =>
      response_text <-
        (if (use_llm && truthy_opt_str (api_key (cb_llm cb')))%bool
         then Raise (AttributeError
                "type object 'PromptTemplates' has no attribute 'create_dbti_explanation_prompt'")
         else Ok ("**" ++ dbti_code ++ " 유형 정보**:

" ++ String.concat "" (map (fun doc => "• " ++ title doc ++ "
" ++ content doc ++ "

") (firstn 5 dbti_docs)))) ;;
      Ok (mk_explain_reply response_text (map title (firstn 5 dbti_docs)) 1 (Some dbti_code))
  end.

(* ------------------------------------------------------------------ *)
(** ** The rest of the OpenRouter client ([openrouter.py]) *)

(** [OpenRouterClient(api_key)]: [api_key or settings.OPENROUTER_API_KEY]. *)
Definition openrouter_client_init (arg_api_key : option string) (settings_api_key : string)
  : openrouter_client :=
  mk_client (if truthy_opt_str arg_api_key then arg_api_key else Some settings_api_key).

(** [settings.OPENROUTER_API_KEY] (its default). *)
Definition OPENROUTER_API_KEY : string := "".

(** [self.models] *)
Definition openrouter_models : list (string * string) :=
  [("claude", "anthropic/claude-3.5-sonnet");
   ("gpt4", "openai/gpt-4o");
   ("gpt4-mini", "openai/gpt-4o-mini");
   ("llama", "meta-llama/llama-3.3-70b-instruct");
   ("free", "google/gemini-2.0-flash-exp:free")].

(** [self.models.get(model, model)] *)
Definition models_get (model : option string) : option string :=
  match model with
  | Some m =>
      match find (fun kv => String.eqb (fst kv) m) openrouter_models with
      | Some kv => Some (snd kv)
      | None => Some m
      end
  | None => None
  end.

(** The JSON payload of the request (the headers carry the key only). *)
Record payload := mk_payload {
  pl_model : option string;
  pl_messages : list message;
  pl_temperature : R;
  pl_max_tokens : Z;
  pl_stream : bool
}.

(** [OpenRouterClient.chat_completion] with all its parameters; [post]
    is the HTTP exchange.  With [stream=True] the method awaits the
    result of calling the async generator function [_stream_completion],
    which Python refuses with [TypeError]. *)
Definition chat_completion_full (client : openrouter_client)
  (post : payload -> result json) (messages : list message) (model : option string)
  (temperature : R) (max_tokens : Z) (stream : bool) : result json :=
  if negb (truthy_opt_str (api_key client))
  then Raise (ValueError "OpenRouter API 키가 설정되지 않았습니다.")
  else
    let model_id := models_get model in
    let pl := mk_payload model_id messages temperature max_tokens stream in
    if stream
    then Raise (TypeError "object async_generator can't be used in 'await' expression")
    else post pl.

(* ------------------------------------------------------------------ *)
(** ** Properties of [search] *)

(** The query and every stored row have the same dimension (the store's
    D, which is also the embedder's output dimension). *)
Definition aligned (db : simple_vector_db) (q : vector) : bool :=
  match embeddings db with
  | None => true
  | Some emb => forallb (fun row => Nat.eqb (length row) (length q)) emb
  end.

(** [np.argsort] order on the indices of [s]. *)
Definition idx_le (s : list R) (i j : nat) : Prop := nth i s 0 <= nth j s 0.

(* ------------------------------------------------------------------ *)
(** ** Concrete stores, services and files used by the examples *)

(** Two documents with the same embedding, inserted A then B. *)
Definition docA : document := mk_document 1 "WTIL" "qa" "A" "a" [].
Definition docB : document := mk_document 2 "WTIL" "qa" "B" "b" [].
Definition db_tie : simple_vector_db :=
  mk_db "data/processed/vector_db.pkl" [docA; docB] (Some [[1]; [1]]).

(** The spec's three-document scenario, v1 = (1,0), v2 = (0,1),
    v3 = (3/5,4/5); each document carries its type code under the key
    the filter of [search] compares as well as under [pawna_code]. *)
Definition doc1 : document :=
  mk_document 1 "WTIL" "guide" "Walk" "Walk energetically." [("dbti_code", "WTIL")].
Definition doc2 : document :=
  mk_document 2 "DTIL" "guide" "Calm" "Calm walks." [("dbti_code", "DTIL")].
Definition doc3 : document :=
  mk_document 3 "WTIL" "guide" "Fetch" "Loves fetch." [("dbti_code", "WTIL")].
Definition db_three : simple_vector_db :=
  mk_db "data/processed/vector_db.pkl" [doc1; doc2; doc3]
        (Some [[1; 0]; [0; 1]; [3/5; 4/5]]).

Definition db_one : simple_vector_db :=
  mk_db "data/processed/vector_db.pkl" [docA] (Some [[1]]).

Definition search_kw_error : exn :=
  TypeError "SimpleVectorDB.search() got an unexpected keyword argument 'pawna_filter'".

Definition retrieve_kw_error : exn :=
  TypeError "SimpleRAGService.retrieve_context() got an unexpected keyword argument 'dbti_filter'".

(** The bare RAG service of the examples: initialised, no API key. *)
Definition rag0 : rag_service :=
  mk_rag_service true false db_three (mk_client None).

Definition chatbot0 : chatbot_service :=
  mk_chatbot true rag0 (mk_client (Some "key")).

(** The messages the composer sends for [query], [pawna_type] and the
    retrieved [docs] (lines 151-162 of [generate_response_with_context]). *)
Definition composer_messages (format_2f : R -> string) (query : string)
  (pawna_type : option string) (docs : list retrieved) : list message :=
  format_messages (get_system_prompt pawna_type) query
    (Some (format_context format_2f docs)) None.

(** The generator fails on the composer's request: the call with those
    messages raises (no API key, provider or transport error, timeout, a
    rejection of this prompt) or its body has no text where
    [result['choices'][0]['message']['content']] looks.  Other requests
    may succeed. *)
Definition llm_fails (client : openrouter_client) (post : list message -> result json)
  (format_2f : R -> string) (query : string) (pawna_type : option string)
  (docs : list retrieved) : Prop :=
  is_raise (bind (chat_completion client post (composer_messages format_2f query pawna_type docs))
                 llm_reply_text) = true.

Definition post_timeout : list message -> result json :=
  fun _ => Raise (RuntimeError "ReadTimeout").

Definition rag_with_key : rag_service :=
  mk_rag_service true true db_three (mk_client (Some "key")).

Definition fs_empty : filesystem := fun _ => None.

(** A service and a chatbot before [initialize], over the default store. *)
Definition rag_fresh : rag_service :=
  mk_rag_service false false (new_simple_vector_db DEFAULT_DB_PATH) (mk_client None).

Definition chatbot_fresh : chatbot_service :=
  mk_chatbot false rag_fresh (mk_client None).

(** A file system whose store file holds bytes that are not a pickle. *)
Definition fs_garbage : filesystem :=
  fun p => if String.eqb p DEFAULT_DB_PATH then Some (Garbage ["x"%char]) else None.

(** A well-formed completion body and a provider that returns it. *)
Definition json_ok : json :=
  JObj [("choices", JList [JObj [("message", JObj [("content", JStr "Walk twice a day.")])]])].

Definition post_ok : list message -> result json := fun _ => Ok json_ok.

Lemma In_firstn_In {A} (n : nat) (l : list A) (x : A) :
  In x (firstn n l) -> In x l.
Proof.
  intros H. rewrite <- (firstn_skipn n l). apply in_or_app. auto.
Qed.

Section SortedLists.
Variable A : Type.
Variable Rel : A -> A -> Prop.

Lemma StronglySorted_app (l1 l2 : list A) :
  StronglySorted Rel l1 -> StronglySorted Rel l2 ->
  (forall x y, In x l1 -> In y l2 -> Rel x y) ->
  StronglySorted Rel (l1 ++ l2).
Proof.
  induction l1 as [|a l1 IH]; intros H1 H2 Hxy; simpl; auto.
  inversion H1; subst. constructor.
  - apply IH; auto. intros x y Hx Hy. apply Hxy; simpl; auto.
  - apply Forall_app. split; auto.
    apply Forall_forall. intros y Hy. apply Hxy; simpl; auto.
Qed.

Lemma StronglySorted_firstn (n : nat) (l : list A) :
  StronglySorted Rel l -> StronglySorted Rel (firstn n l).
Proof.
  revert l; induction n as [|n IH]; intros l H; simpl; [constructor|].
  destruct l as [|a l]; [constructor|].
  inversion H; subst. constructor; auto.
  rewrite Forall_forall in *. intros x Hx. apply In_firstn_In in Hx. auto.
Qed.

End SortedLists.

Lemma StronglySorted_impl (A : Type) (R1 R2 : A -> A -> Prop) (l : list A) :
  (forall x y, R1 x y -> R2 x y) -> StronglySorted R1 l -> StronglySorted R2 l.
Proof.
  intros Himp H. induction H; constructor; auto.
  eapply Forall_impl; [|eassumption]. auto.
Qed.

Lemma StronglySorted_rev (A : Type) (Rel : A -> A -> Prop) (l : list A) :
  StronglySorted Rel l -> StronglySorted (fun a b => Rel b a) (rev l).
Proof.
  induction l as [|a l IH]; intros H; simpl; [constructor|].
  inversion H; subst.
  apply StronglySorted_app; auto.
  - repeat constructor.
  - intros x y Hx Hy. destruct Hy as [<-|[]].
    apply in_rev in Hx. rewrite Forall_forall in *. auto.
Qed.

Section Argsort.
Variable s : list R.

Lemma insert_idx_Forall (P : nat -> Prop) (i : nat) (l : list nat) :
  P i -> Forall P l -> Forall P (insert_idx s i l).
Proof.
  intros Hi Hl. induction Hl as [|j l Hj Hl IH]; simpl; auto.
  destruct (Rle_dec (nth i s 0) (nth j s 0)); auto.
Qed.

Lemma insert_idx_sorted (i : nat) (l : list nat) :
  StronglySorted (idx_le s) l -> StronglySorted (idx_le s) (insert_idx s i l).
Proof.
  induction l as [|j l IH]; intros H; simpl.
  - repeat constructor.
  - inversion H as [|? ? Hs Hf]; subst.
    destruct (Rle_dec (nth i s 0) (nth j s 0)) as [Hle|Hgt].
    + constructor; auto. constructor; [exact Hle|].
      rewrite Forall_forall in *. intros k Hk. unfold idx_le in *.
      specialize (Hf k Hk). lra.
    + constructor; auto. apply insert_idx_Forall; auto.
      unfold idx_le. lra.
Qed.

Lemma argsort_sorted : StronglySorted (idx_le s) (argsort s).
Proof.
  unfold argsort. induction (seq 0 (length s)); simpl.
  - constructor.
  - apply insert_idx_sorted; auto.
Qed.

End Argsort.

Lemma py_index_nth (xs : list R) i x :
  py_index xs i = Ok x -> nth i xs 0 = x.
Proof.
  unfold py_index. intros H. destruct (nth_error xs i) eqn:E; inversion H; subst.
  apply nth_error_nth; auto.
Qed.

Lemma py_index_In {A} (xs : list A) i x :
  py_index xs i = Ok x -> In x xs.
Proof.
  unfold py_index. intros H. destruct (nth_error xs i) eqn:E; inversion H; subst.
  eapply nth_error_In; eauto.
Qed.

(** What [collect] returns: a sub-list of the indexed candidates, each
    with the similarity at its index and a score of at least [min_score]. *)
Lemma collect_spec fsims fdocs m idxs rs :
  collect fsims fdocs m idxs = Ok rs ->
  (length rs <= length idxs)%nat /\
  Forall (fun r => (exists i, In i idxs /\ score r = nth i fsims 0)
                   /\ In (r_doc r) fdocs /\ m <= score r) rs.
Proof.
  revert rs; induction idxs as [|idx rest IH]; intros rs H; simpl in H.
  - inversion H; subst. simpl; auto.
  - destruct (py_index fsims idx) as [sc|e] eqn:Esc; simpl in H; [|discriminate].
    destruct (Rle_dec m sc) as [Hm|Hm].
    + destruct (py_index fdocs idx) as [d|e] eqn:Ed; simpl in H; [|discriminate].
      destruct (collect fsims fdocs m rest) as [rs'|e] eqn:Er; simpl in H; [|discriminate].
      inversion H; subst. destruct (IH rs' eq_refl) as [Hlen Hall].
      split; [simpl; lia|]. constructor.
      * simpl. split; [|split].
        -- exists idx. split; [left; auto|]. symmetry. apply py_index_nth; auto.
        -- eapply py_index_In; eauto.
        -- exact Hm.
      * eapply Forall_impl; [|exact Hall]. simpl.
        intros r [[i [Hi Hs]] Hr]. split; auto. exists i; auto.
    + destruct (IH rs H) as [Hlen Hall]. split; [simpl; lia|].
      eapply Forall_impl; [|exact Hall]. simpl.
      intros r [[i [Hi Hs]] Hr]. split; auto. exists i; auto.
Qed.

Lemma collect_sorted fsims fdocs m idxs rs :
  StronglySorted (fun i j => nth i fsims 0 >= nth j fsims 0) idxs ->
  collect fsims fdocs m idxs = Ok rs ->
  StronglySorted Rge (map score rs).
Proof.
  revert rs; induction idxs as [|idx rest IH]; intros rs Hs H; simpl in H.
  - inversion H; subst. constructor.
  - inversion Hs as [|? ? Hs' Hf]; subst.
    destruct (py_index fsims idx) as [sc|e] eqn:Esc; simpl in H; [|discriminate].
    destruct (Rle_dec m sc) as [Hm|Hm].
    + destruct (py_index fdocs idx) as [d|e] eqn:Ed; simpl in H; [|discriminate].
      destruct (collect fsims fdocs m rest) as [rs'|e] eqn:Er; simpl in H; [|discriminate].
      inversion H; subst. simpl. constructor; auto.
      apply collect_spec in Er. destruct Er as [_ Hall].
      apply Forall_map. eapply Forall_impl; [|exact Hall].
      intros r [[i [Hi Hsc]] _]. rewrite Hsc.
      apply py_index_nth in Esc. rewrite <- Esc.
      rewrite Forall_forall in Hf. apply Hf; auto.
    + apply IH; auto.
Qed.

Lemma rank_spec fsims fdocs k m rs :
  (0 <= k)%Z ->
  rank fsims fdocs k m = Ok rs ->
  (length rs <= Z.to_nat k)%nat /\ StronglySorted Rge (map score rs) /\
  Forall (fun r => In (r_doc r) fdocs /\ m <= score r) rs.
Proof.
  intros Hk H. unfold rank, py_slice_to in H.
  replace ((0 <=? k)%Z) with true in H by (symmetry; apply Z.leb_le; auto).
  pose proof (collect_spec _ _ _ _ _ H) as [Hlen Hall].
  split; [|split].
  - rewrite length_firstn in Hlen. lia.
  - eapply collect_sorted; [|exact H].
    apply StronglySorted_firstn.
    eapply StronglySorted_impl; [|apply (StronglySorted_rev nat (idx_le fsims))].
    + unfold idx_le. intros x y Hxy. lra.
    + apply argsort_sorted.
  - eapply Forall_impl; [|exact Hall]. intros r [_ H']. exact H'.
Qed.

Lemma combine_seq_In (docs : list document) (k i : nat) (d : document) :
  In (i, d) (combine (seq k (length docs)) docs) ->
  (k <= i)%nat /\ (i - k < length docs)%nat /\ nth (i - k) docs dflt_doc = d.
Proof.
  revert k; induction docs as [|d0 docs IH]; intros k H; simpl in H; [contradiction|].
  destruct H as [H|H].
  - inversion H; subst. rewrite Nat.sub_diag. simpl. split; [lia|split; [lia|auto]].
  - destruct (IH (S k) H) as [H1 [H2 H3]].
    replace (i - k)%nat with (S (i - S k)) by lia. simpl.
    split; [lia|split; [lia|auto]].
Qed.

Lemma filter_indices_spec (docs : list document) (x : string) (i : nat) :
  In i (filter_indices docs x) ->
  (i < length docs)%nat /\ doc_get (nth i docs dflt_doc) "dbti_code" = Some x.
Proof.
  unfold filter_indices. intros H. apply in_map_iff in H.
  destruct H as [[j d] [Hj Hin]]. simpl in Hj. subst j.
  apply filter_In in Hin. destruct Hin as [Hin Hp]. simpl in Hp.
  apply combine_seq_In in Hin. rewrite Nat.sub_0_r in Hin.
  destruct Hin as [_ [Hlt Hnth]]. split; auto. rewrite Hnth.
  destruct (doc_get d "dbti_code") as [c|]; [|discriminate].
  apply String.eqb_eq in Hp. subst; auto.
Qed.

Lemma filter_indices_nil (docs : list document) (x : string) :
  (forall d, In d docs -> doc_get d "dbti_code" <> Some x) ->
  filter_indices docs x = [].
Proof.
  intros Hno. destruct (filter_indices docs x) as [|i l] eqn:E; auto.
  exfalso. assert (Hi : In i (filter_indices docs x)) by (rewrite E; left; auto).
  apply filter_indices_spec in Hi. destruct Hi as [Hlt Hget].
  apply (Hno (nth i docs dflt_doc)); auto. apply nth_In; auto.
Qed.

Lemma take_indices_ok (xs : list R) (idxs : list nat) :
  Forall (fun i => (i < length xs)%nat) idxs ->
  exists ys, take_indices xs idxs = Ok ys.
Proof.
  intros H. induction H as [|i l Hi Hl IH]; simpl; [eauto|].
  unfold py_index. destruct (nth_error xs i) eqn:E.
  - destruct IH as [ys Hys]. simpl. rewrite Hys. simpl. eauto.
  - apply nth_error_None in E. lia.
Qed.

Lemma length_vdiv (v : vector) (c : R) : length (vdiv v c) = length v.
Proof. unfold vdiv. apply length_map. Qed.

Lemma cosine_similarities_ok (emb : matrix) (q : vector) :
  forallb (fun row => Nat.eqb (length row) (length q)) emb = true ->
  cosine_similarities emb q = Ok (map (fun row => dot row (vdiv q (norm q)))
                                      (map (fun row => vdiv row (norm row)) emb)).
Proof.
  intros H. unfold cosine_similarities, np_dot.
  replace (forallb _ _) with true; auto. symmetry.
  rewrite forallb_forall in *. intros r Hr. apply in_map_iff in Hr.
  destruct Hr as [row [<- Hrow]]. rewrite !length_vdiv. apply H; auto.
Qed.

(** Every successful [search] is either the empty list or a [rank] over
    candidates drawn from the store; under a truthy filter [X] every
    candidate carries [X] under the key the filter reads. *)
Lemma search_cases db q k f m rs :
  search db q k f m = Ok rs ->
  rs = [] \/
  exists fsims fdocs, rank fsims fdocs k m = Ok rs /\
    forall d, In d fdocs -> In d (documents db) /\
      (forall x, f = Some x -> truthy_opt_str f = true ->
                 doc_get d "dbti_code" = Some x).
Proof.
  unfold search. intros H.
  destruct (embeddings db) as [emb|]; [|inversion H; auto].
  destruct (Nat.eqb (length (documents db)) 0); [inversion H; auto|].
  destruct (cosine_similarities emb q) as [sims|e]; simpl in H; [|discriminate].
  destruct f as [x|].
  - destruct (truthy_opt_str (Some x)) eqn:Et.
    + destruct (filter_indices (documents db) x) as [|i0 l0] eqn:Efi;
        [inversion H; auto|].
      destruct (take_indices sims (i0 :: l0)) as [fs|e]; simpl in H; [|discriminate].
      right. do 2 eexists. split; [exact H|].
      intros d Hd.
      change (In d (map (fun i => nth i (documents db) dflt_doc) (i0 :: l0))) in Hd.
      apply in_map_iff in Hd. destruct Hd as [i [<- Hi]].
      rewrite <- Efi in Hi. apply filter_indices_spec in Hi.
      destruct Hi as [Hlt Hget]. split; [apply nth_In; auto|].
      intros y Hy _. inversion Hy; subst. exact Hget.
    + right. do 2 eexists. split; [exact H|].
      intros d Hd. split; auto. intros y _ Ht. congruence.
  - right. do 2 eexists. split; [exact H|].
    intros d Hd. split; auto. intros y Hy. discriminate.
Qed.

(** Every returned score is at least [min_score] (spec P3). *)
Lemma search_min_score db q k f m rs :
  (0 <= k)%Z -> search db q k f m = Ok rs -> Forall (fun r => m <= score r) rs.
Proof.
  intros Hk H. apply search_cases in H.
  destruct H as [->|[fs [fd [Hr _]]]]; [constructor|].
  apply rank_spec in Hr; auto. destruct Hr as [_ [_ Hall]].
  eapply Forall_impl; [|exact Hall]. intros r [_ Hm]; auto.
Qed.

(** Claim C9: on a store with zero documents, or with no embedding matrix,
    [search] returns the empty list for every query vector, [top_k],
    filter and [min_score], and raises nothing. *)
Theorem search_empty_store (db : simple_vector_db) (q : vector) (k : Z)
  (f : option string) (m : R) :
  documents db = [] \/ embeddings db = None ->
  search db q k f m = Ok [].
Proof.
  intros H. unfold search.
  destruct (embeddings db) as [emb|] eqn:E; auto.
  destruct H as [H|H]; [|discriminate]. rewrite H. reflexivity.
Qed.

Lemma search_empty_store_witness :
  (documents (new_simple_vector_db "data/processed/vector_db.pkl") = []
   \/ embeddings (new_simple_vector_db "data/processed/vector_db.pkl") = None) /\
  search (new_simple_vector_db "data/processed/vector_db.pkl") [1; 2] 5%Z (Some "WTIL") 0
  = Ok [].
Proof.
  split; [left; reflexivity|].
  apply search_empty_store. left. reflexivity.
Defined.

(** Settles the branches of [Rle_dec] on concrete reals. *)
Ltac decide_Rle :=
  repeat match goal with
         | |- context [Rle_dec ?a ?b] => destruct (Rle_dec a b); try lra
         end.

Lemma norm_1 : norm [1] = 1.
Proof. unfold norm. simpl. replace (1 * 1 + 0) with 1 by ring. apply sqrt_1. Qed.

Lemma norm_1_0 : norm [1; 0] = 1.
Proof. unfold norm. simpl. replace (1 * 1 + (0 * 0 + 0)) with 1 by ring. apply sqrt_1. Qed.

Lemma norm_0_1 : norm [0; 1] = 1.
Proof. unfold norm. simpl. replace (0 * 0 + (1 * 1 + 0)) with 1 by ring. apply sqrt_1. Qed.

Lemma norm_3_4 : norm [3/5; 4/5] = 1.
Proof.
  unfold norm. simpl. replace (3 / 5 * (3 / 5) + (4 / 5 * (4 / 5) + 0)) with 1 by field.
  apply sqrt_1.
Qed.

Lemma db_three_similarities :
  map (fun row => dot row (vdiv [1; 0] (norm [1; 0])))
      (map (fun row => vdiv row (norm row)) [[1; 0]; [0; 1]; [3/5; 4/5]])
  = [1; 0; 3/5].
Proof.
  cbn -[norm]. rewrite norm_1_0, norm_0_1, norm_3_4.
  f_equal; [field|f_equal; [field|f_equal; field]].
Qed.

(** Claim C5 (as amended): for every store, query vector, filter and
    [min_score], and every [top_k >= 0], [search] returns at most [top_k]
    results whose scores are in non-increasing order.  The order among
    equal scores is not guaranteed to be the insertion order (see
    [search_ties_reversed]). *)
Theorem search_top_k_sorted (db : simple_vector_db) (q : vector) (k : Z)
  (f : option string) (m : R) (rs : list retrieved) :
  (0 <= k)%Z ->
  search db q k f m = Ok rs ->
  (length rs <= Z.to_nat k)%nat /\ StronglySorted Rge (map score rs).
Proof.
  intros Hk H. apply search_cases in H.
  destruct H as [->|[fs [fd [Hr _]]]].
  - simpl. split; [lia|constructor].
  - apply rank_spec in Hr; auto. tauto.
Qed.

(** Counterexample to claim C5: two documents with equal scores come back
    in reverse insertion order (B before A), because [search] reverses the
    ascending [np.argsort] with [[::-1]]. *)
Lemma search_ties_reversed :
  search db_tie [1] 2%Z None 0
  = Ok [mk_retrieved docB 1; mk_retrieved docA 1].
Proof.
  unfold search. cbn -[cosine_similarities].
  rewrite cosine_similarities_ok by reflexivity.
  cbn -[norm]. rewrite norm_1.
  replace (1 / 1 * (1 / 1) + 0) with 1 by field.
  decide_Rle. simpl. decide_Rle. reflexivity.
Qed.

Lemma search_top_k_sorted_witness :
  (0 <= 2)%Z /\ search db_tie [1] 2%Z None 0 = Ok [mk_retrieved docB 1; mk_retrieved docA 1] /\
  (length [mk_retrieved docB 1; mk_retrieved docA 1] <= Z.to_nat 2)%nat /\
  StronglySorted Rge (map score [mk_retrieved docB 1; mk_retrieved docA 1]).
Proof.
  assert (Hk : (0 <= 2)%Z) by lia.
  assert (Hs : search db_tie [1] 2%Z None 0
               = Ok [mk_retrieved docB 1; mk_retrieved docA 1]).
  { unfold search. cbn -[cosine_similarities].
    rewrite cosine_similarities_ok by reflexivity.
    cbn -[norm]. rewrite norm_1.
    replace (1 / 1 * (1 / 1) + 0) with 1 by field.
    decide_Rle. simpl. decide_Rle. reflexivity. }
  split; [exact Hk|split; [exact Hs|]].
  exact (search_top_k_sorted db_tie [1] 2%Z None 0 _ Hk Hs).
Defined.

(** Claim C2 (as amended): for a non-empty filter string [X], every result
    of [search] carries [X] under the key the filter compares, and when no
    stored document carries [X] there the result is the empty list, not an
    error (query and rows of the same dimension); an empty-string filter is
    falsy and filters nothing; in the three-document scenario, with the
    tags under the compared key, [k = 2], filter WTIL and [min_score = 0]
    give [doc1; doc3] in descending score order. *)
Theorem search_filter_tag (db : simple_vector_db) (q : vector) (k : Z)
  (x : string) (m : R) :
  x <> "" ->
  (forall rs, search db q k (Some x) m = Ok rs ->
     Forall (fun r => doc_get (r_doc r) "dbti_code" = Some x) rs) /\
  (aligned db q = true ->
   (forall d, In d (documents db) -> doc_get d "dbti_code" <> Some x) ->
   search db q k (Some x) m = Ok []) /\
  search db q k (Some "") m = search db q k None m /\
  search db_three [1; 0] 2%Z (Some "WTIL") 0
  = Ok [mk_retrieved doc1 1; mk_retrieved doc3 (3/5)].
Proof.
  intros Hx. split; [|split; [|split]].
  - intros rs H. apply search_cases in H.
    destruct H as [->|[fs [fd [Hr Hfd]]]]; [constructor|].
    unfold rank in Hr. apply collect_spec in Hr. destruct Hr as [_ Hall].
    eapply Forall_impl; [|exact Hall]. intros r [_ [Hin _]].
    apply Hfd in Hin. destruct Hin as [_ Hget]. apply Hget; auto.
    simpl. destruct (String.eqb x "") eqn:E; auto.
    apply String.eqb_eq in E. contradiction.
  - intros Hal Hno. unfold search. unfold aligned in Hal.
    destruct (embeddings db) as [emb|]; auto.
    destruct (Nat.eqb (length (documents db)) 0); auto.
    rewrite cosine_similarities_ok by exact Hal. simpl.
    replace (negb (String.eqb x "")) with true.
    + rewrite filter_indices_nil; auto.
    + destruct (String.eqb x "") eqn:E; auto.
      apply String.eqb_eq in E. contradiction.
  - unfold search. reflexivity.
  - unfold search. cbn -[cosine_similarities].
    rewrite cosine_similarities_ok by reflexivity.
    rewrite db_three_similarities. simpl. unfold argsort. simpl.
    decide_Rle. simpl. decide_Rle. reflexivity.
Qed.

Lemma search_filter_tag_witness :
  "WTIL" <> "" /\
  Forall (fun r => doc_get (r_doc r) "dbti_code" = Some "WTIL")
         [mk_retrieved doc1 1; mk_retrieved doc3 (3/5)].
Proof.
  assert (Hx : "WTIL" <> "") by discriminate.
  split; [exact Hx|].
  destruct (search_filter_tag db_three [1; 0] 2%Z "WTIL" 0 Hx) as [Hres [_ [_ Hsc]]].
  apply Hres. exact Hsc.
Defined.

(** Counterexample to claim C2: with the filter value [""] (not [None]),
    [search] applies no filter and returns a document whose type code is
    WTIL, not [""]. *)
Lemma search_empty_filter_unfiltered :
  search db_one [1] 1%Z (Some "") 0 = Ok [mk_retrieved docA 1] /\
  pawna_code docA <> "" /\ doc_get docA "dbti_code" <> Some "".
Proof.
  split; [|split; discriminate].
  unfold search. cbn -[cosine_similarities].
  rewrite cosine_similarities_ok by reflexivity.
  cbn -[norm]. rewrite norm_1.
  replace (1 / 1 * (1 / 1) + 0) with 1 by field.
  simpl. decide_Rle. reflexivity.
Qed.

(* ------------------------------------------------------------------ *)
(** ** The keyword mismatch between the three services *)

Lemma retrieve_context_raises encode_text rag_initialize st query top_k f m :
  rag_initialized st = true ->
  retrieve_context encode_text rag_initialize st query top_k f m = Raise search_kw_error.
Proof.
  intros H. unfold retrieve_context. rewrite H. reflexivity.
Qed.

(** Claim C1: once the RAG service is initialised, [retrieve_context]
    raises [TypeError] for every query, [top_k], filter and [min_score]
    (it passes [pawna_filter=] to [search], whose parameter is
    [dbti_filter]); so [generate_response_with_context] never returns
    normally; and [ChatbotService.generate_response], which passes
    [dbti_filter=] to [retrieve_context], catches the [TypeError] and
    returns the apology reply with confidence 0, no sources and method
    "fallback", for every input. *)
Theorem keyword_mismatch_fallback
  (format_2f : R -> string) (encode_text : string -> vector)
  (rag_initialize : rag_service -> result rag_service)
  (chatbot_initialize : chatbot_service -> result chatbot_service)
  (st : rag_service) (cb : chatbot_service) :
  rag_initialized st = true ->
  cb_initialized cb = true ->
  (forall query top_k f m,
     retrieve_context encode_text rag_initialize st query top_k f m
     = Raise search_kw_error) /\
  (forall post query pawna_type top_k use_llm,
     generate_response_with_context format_2f encode_text rag_initialize
       st post query pawna_type top_k use_llm = Raise search_kw_error) /\
  (forall user_query dbti_type history use_llm llm_model,
     exists r,
       chatbot_generate_response encode_text rag_initialize chatbot_initialize
         cb user_query dbti_type history use_llm llm_model = Ok r /\
       c_response r = "죄송합니다. 일시적인 오류가 발생했습니다. 잠시 후 다시 시도해주세요." /\
       c_confidence r = 0 /\ c_sources r = [] /\ c_method r = "fallback" /\
       c_error r = Some (exn_str retrieve_kw_error)).
Proof.
  intros Hst Hcb. split; [|split].
  - intros. apply retrieve_context_raises; auto.
  - intros. unfold generate_response_with_context, call_kw.
    simpl check_call. cbv iota.
    rewrite retrieve_context_raises by exact Hst. reflexivity.
  - intros. exists (chat_fallback retrieve_kw_error).
    unfold chatbot_generate_response. rewrite Hcb. simpl bind.
    split; [reflexivity|]. repeat split; reflexivity.
Qed.

Lemma keyword_mismatch_fallback_witness :
  rag_initialized rag0 = true /\ cb_initialized chatbot0 = true /\
  retrieve_context (fun _ => [1; 0]) (fun s => Ok s) rag0 "산책" 5%Z (Some "WTIL") 0
  = Raise search_kw_error.
Proof.
  assert (H1 : rag_initialized rag0 = true) by reflexivity.
  assert (H2 : cb_initialized chatbot0 = true) by reflexivity.
  split; [exact H1|split; [exact H2|]].
  destruct (keyword_mismatch_fallback (fun _ => "1.00") (fun _ => [1; 0])
              (fun s => Ok s) (fun c => Ok c) rag0 chatbot0 H1 H2) as [H _].
  apply H.
Defined.

(* ------------------------------------------------------------------ *)
(** ** The composer after retrieval *)

Lemma llm_branch_ok_at st post query pawna_type docs ctx r :
  llm_branch st post query pawna_type docs ctx = Ok r ->
  is_raise (bind (chat_completion (openrouter st) post
                    (format_messages (get_system_prompt pawna_type) query (Some ctx) None))
                 llm_reply_text) = false.
Proof.
  unfold llm_branch. cbv zeta. intros H.
  destruct (chat_completion (openrouter st) post
              (format_messages (get_system_prompt pawna_type) query (Some ctx) None))
    as [res|e]; simpl in H |- *; [|discriminate].
  destruct (llm_reply_text res) as [txt|e]; simpl in H |- *; [reflexivity|discriminate].
Qed.

Lemma llm_branch_ok_inv st post query pawna_type docs ctx r :
  llm_branch st post query pawna_type docs ctx = Ok r ->
  (exists messages s,
     bind (chat_completion (openrouter st) post messages) llm_reply_text = Ok s) /\
  confidence r = top_score docs.
Proof.
  unfold llm_branch. intros H.
  destruct (chat_completion (openrouter st) post _) as [res|e] eqn:Ec; simpl in H;
    [|discriminate].
  destruct (llm_reply_text res) as [txt|e] eqn:Et; simpl in H; [|discriminate].
  inversion H; subst. split; [|reflexivity].
  do 2 eexists. rewrite Ec. simpl. exact Et.
Qed.

Lemma compose_response_ok format_2f st post query pawna_type use_llm docs :
  exists r, compose_response format_2f st post query pawna_type use_llm docs = Ok r /\
            confidence r = top_score docs.
Proof.
  unfold compose_response.
  destruct (use_llm && openrouter_available st && negb (Nat.eqb (length docs) 0))%bool.
  - unfold try_except.
    destruct (llm_branch st post query pawna_type docs (format_context format_2f docs))
      as [r|e] eqn:E.
    + exists r. split; auto. apply llm_branch_ok_inv in E. tauto.
    + eexists. split; reflexivity.
  - eexists. split; reflexivity.
Qed.

(** [generate_response_with_context] is [retrieve_context] followed by the
    composer: the keyword call to [retrieve_context] binds. *)
Lemma generate_response_bind format_2f encode_text rag_initialize st post query
  pawna_type top_k use_llm :
  generate_response_with_context format_2f encode_text rag_initialize st post query
    pawna_type top_k use_llm
  = bind (retrieve_context encode_text rag_initialize st query top_k pawna_type (3/10))
         (compose_response format_2f st post query pawna_type use_llm).
Proof. reflexivity. Qed.

(** [retrieve_context] never returns normally: either [initialize] raises
    or the keyword call to [search] does. *)
Lemma retrieve_context_never_ok encode_text rag_initialize st query top_k f m docs :
  retrieve_context encode_text rag_initialize st query top_k f m <> Ok docs.
Proof.
  unfold retrieve_context. destruct (rag_initialized st); [discriminate|].
  destruct (rag_initialize st); discriminate.
Qed.

(** Claim C3: when the generator fails on the composer's request (it
    raises, returns a malformed body, or has no credential) and retrieval found at least one document
    [d :: rest], the composer still returns a response, with [llm_used]
    false and a non-empty text made of [d]'s content, a bulleted list of
    the other titles when there are any, and the note on the Pawna type;
    and whenever [retrieve_context] returns [d :: rest],
    [generate_response_with_context] returns exactly that response.  (With
    the current keyword mismatch [retrieve_context] never returns, so the
    second part holds vacuously end to end; see [retrieve_context_never_ok].) *)
Theorem compose_fallback_on_llm_failure (format_2f : R -> string)
  (st : rag_service) (post : list message -> result json) (query : string)
  (pawna_type : option string) (use_llm : bool) (d : retrieved) (rest : list retrieved) :
  llm_fails (openrouter st) post format_2f query pawna_type (d :: rest) ->
  (forall encode_text rag_initialize top_k,
     retrieve_context encode_text rag_initialize st query top_k pawna_type (3/10)
       = Ok (d :: rest) ->
     generate_response_with_context format_2f encode_text rag_initialize st post query
       pawna_type top_k use_llm
     = compose_response format_2f st post query pawna_type use_llm (d :: rest)) /\
  exists r,
    compose_response format_2f st post query pawna_type use_llm (d :: rest) = Ok r /\
    llm_used r = false /\
    response r <> "" /\
    response r =
      "💡 " ++ content (r_doc d)
      ++ match rest with
         | [] => ""
         | _ :: _ => "

📚 추가 참고 정보:
" ++ String.concat "" (map (fun x => "• " ++ title (r_doc x) ++ "
") rest)
         end
      ++ type_note pawna_type.
Proof.
  intros Hfail. split.
  { intros encode_text rag_initialize top_k Hret.
    rewrite generate_response_bind, Hret. reflexivity. }
  assert (Hdirect : forall r,
     r = mk_rag_response (fallback_text (d :: rest) pawna_type)
           (format_context format_2f (d :: rest))
           (map (fun x => title (r_doc x)) (d :: rest)) (length (d :: rest))
           (top_score (d :: rest)) false None ->
     llm_used r = false /\ response r <> "" /\
     response r =
      "💡 " ++ content (r_doc d)
      ++ match rest with
         | [] => ""
         | _ :: _ => "

📚 추가 참고 정보:
" ++ String.concat "" (map (fun x => "• " ++ title (r_doc x) ++ "
") rest)
         end
      ++ type_note pawna_type).
  { intros r ->. simpl. split; [reflexivity|split; [discriminate|reflexivity]]. }
  unfold compose_response.
  destruct (use_llm && openrouter_available st
            && negb (Nat.eqb (length (d :: rest)) 0))%bool.
  - unfold try_except.
    destruct (llm_branch st post query pawna_type (d :: rest)
                (format_context format_2f (d :: rest))) as [r|e] eqn:E.
    + exfalso. apply llm_branch_ok_at in E.
      unfold llm_fails, composer_messages in Hfail. congruence.
    + eexists. split; [reflexivity|]. apply Hdirect. reflexivity.
  - eexists. split; [reflexivity|]. apply Hdirect. reflexivity.
Qed.

Lemma compose_fallback_on_llm_failure_witness :
  llm_fails (openrouter rag_with_key) post_timeout (fun _ => "1.00") "산책" (Some "WTIL")
    [mk_retrieved doc1 1; mk_retrieved doc3 (3/5)] /\
  exists r,
    compose_response (fun _ => "1.00") rag_with_key post_timeout "산책" (Some "WTIL") true
      [mk_retrieved doc1 1; mk_retrieved doc3 (3/5)] = Ok r /\ llm_used r = false.
Proof.
  assert (Hf : llm_fails (openrouter rag_with_key) post_timeout (fun _ => "1.00") "산책"
                 (Some "WTIL") [mk_retrieved doc1 1; mk_retrieved doc3 (3/5)])
    by reflexivity.
  split; [exact Hf|].
  destruct (compose_fallback_on_llm_failure (fun _ => "1.00") rag_with_key post_timeout
              "산책" (Some "WTIL") true (mk_retrieved doc1 1) [mk_retrieved doc3 (3/5)] Hf)
    as [_ [r [Hr [Hu _]]]].
  exists r. split; assumption.
Defined.

(** Claim C4: the composer's confidence is 0 exactly when retrieval
    returned no document, and otherwise the score of the first retrieved
    document, whichever branch produced the text.  The documents come from
    [retrieve_context] with its [min_score] of 0.3, so every score is at
    least 0.3 ([search_min_score]).  Every return of
    [generate_response_with_context] is such a composer result on the list
    [retrieve_context] returned (vacuously so while [retrieve_context]
    never returns). *)
Theorem compose_confidence (format_2f : R -> string) (st : rag_service)
  (post : list message -> result json) (query : string)
  (pawna_type : option string) (use_llm : bool) (docs : list retrieved) :
  Forall (fun r => 3/10 <= score r) docs ->
  (forall encode_text rag_initialize top_k r,
     generate_response_with_context format_2f encode_text rag_initialize st post query
       pawna_type top_k use_llm = Ok r ->
     exists docs',
       retrieve_context encode_text rag_initialize st query top_k pawna_type (3/10)
         = Ok docs' /\
       compose_response format_2f st post query pawna_type use_llm docs' = Ok r /\
       (confidence r = 0 <-> docs' = []) /\
       (forall d rest, docs' = d :: rest -> confidence r = score d)) /\
  exists r,
    compose_response format_2f st post query pawna_type use_llm docs = Ok r /\
    (confidence r = 0 <-> docs = []) /\
    (forall d rest, docs = d :: rest -> confidence r = score d).
Proof.
  intros Hmin. split.
  { intros encode_text rag_initialize top_k r Hgen.
    rewrite generate_response_bind in Hgen.
    destruct (retrieve_context encode_text rag_initialize st query top_k pawna_type (3/10))
      as [docs'|e] eqn:Hret; [|discriminate].
    exfalso. exact (retrieve_context_never_ok _ _ _ _ _ _ _ _ Hret). }
  destruct (compose_response_ok format_2f st post query pawna_type use_llm docs)
    as [r [Hr Hc]].
  exists r. split; [exact Hr|]. rewrite Hc. split.
  - destruct docs as [|d rest]; simpl; [tauto|].
    inversion Hmin; subst. split; [intros; lra|discriminate].
  - intros d rest ->. reflexivity.
Qed.

Lemma compose_confidence_witness :
  Forall (fun r => 3/10 <= score r) [mk_retrieved doc1 1; mk_retrieved doc3 (3/5)] /\
  exists r,
    compose_response (fun _ => "1.00") rag_with_key post_timeout "산책" None true
      [mk_retrieved doc1 1; mk_retrieved doc3 (3/5)] = Ok r /\ confidence r = 1.
Proof.
  assert (Hm : Forall (fun r => 3/10 <= score r)
                 [mk_retrieved doc1 1; mk_retrieved doc3 (3/5)]).
  { repeat constructor; simpl; lra. }
  split; [exact Hm|].
  destruct (compose_confidence (fun _ => "1.00") rag_with_key post_timeout "산책" None true
              [mk_retrieved doc1 1; mk_retrieved doc3 (3/5)] Hm) as [_ [r [Hr [_ Htop]]]].
  exists r. split; [exact Hr|]. apply (Htop _ _ eq_refl).
Defined.

(* ------------------------------------------------------------------ *)
(** ** Context formatting and message assembly *)

Lemma nth_error_enumerate_from {A} (start i : nat) (xs : list A) :
  nth_error (enumerate_from start xs) i
  = option_map (fun x => (start + i, x)%nat) (nth_error xs i).
Proof.
  revert start i; induction xs as [|x xs IH]; intros start i; destruct i; simpl; auto.
  - rewrite Nat.add_0_r. reflexivity.
  - rewrite IH. replace (S start + i)%nat with (start + S i)%nat by lia. reflexivity.
Qed.

Lemma length_enumerate_from {A} (start : nat) (xs : list A) :
  length (enumerate_from start xs) = length xs.
Proof. revert start; induction xs; intros; simpl; auto. Qed.

Example string_of_nat_12 : string_of_nat 12 = "12".
Proof. reflexivity. Qed.

(** Claim C8: [format_context] maps the empty list to a fixed non-empty
    sentinel, and a non-empty list to one numbered block per document, in
    the input order, joined by a blank line; block [i] holds the title,
    the content and the score formatted to two decimals of the [i]-th
    document. *)
Theorem format_context_blocks (format_2f : R -> string) (docs : list retrieved) :
  format_context format_2f [] = no_context_sentinel /\
  no_context_sentinel <> "" /\
  (docs <> [] ->
   exists blocks,
     format_context format_2f docs = String.concat "

" blocks /\
     length blocks = length docs /\
     forall i d, nth_error docs i = Some d ->
       nth_error blocks i =
         Some ("[문서 " ++ string_of_nat (S i) ++ "] " ++ title (r_doc d) ++ "
" ++ content (r_doc d) ++ "
" ++ "(Pawna: " ++ pawna_code (r_doc d) ++ ", 유사도: " ++ format_2f (score d) ++ ")")).
Proof.
  split; [reflexivity|split; [discriminate|]].
  intros Hne.
  exists (map (fun p => format_block format_2f (fst p) (snd p)) (enumerate_from 1 docs)).
  split; [|split].
  - destruct docs; [contradiction|reflexivity].
  - rewrite length_map. apply length_enumerate_from.
  - intros i d Hd. rewrite nth_error_map, nth_error_enumerate_from, Hd. reflexivity.
Qed.

Lemma format_context_blocks_witness :
  [mk_retrieved doc1 1; mk_retrieved doc3 (3/5)] <> [] /\
  format_context (fun _ => "1.00") [mk_retrieved doc1 1; mk_retrieved doc3 (3/5)]
  = format_block (fun _ => "1.00") 1 (mk_retrieved doc1 1) ++ "

" ++ format_block (fun _ => "1.00") 2 (mk_retrieved doc3 (3/5)).
Proof.
  assert (Hne : [mk_retrieved doc1 1; mk_retrieved doc3 (3/5)] <> []) by discriminate.
  split; [exact Hne|].
  destruct (format_context_blocks (fun _ => "1.00") [mk_retrieved doc1 1; mk_retrieved doc3 (3/5)])
    as [_ [_ H]].
  destruct (H Hne) as [blocks [Hf [Hl Hb]]].
  rewrite Hf.
  destruct blocks as [|b0 [|b1 [|b2 bs]]]; try discriminate.
  pose proof (Hb 0%nat (mk_retrieved doc1 1) eq_refl) as H0.
  pose proof (Hb 1%nat (mk_retrieved doc3 (3/5)) eq_refl) as H1.
  simpl in H0, H1. inversion H0. inversion H1. reflexivity.
Defined.

(** Claim C10: [format_messages] sends the system message first, then the
    most recent five entries of the supplied history (all of them when
    there are fewer), oldest first and in their original order, then the
    current user message. *)
Theorem format_messages_window (system_prompt user_message : string)
  (ctx : option string) (conversation_history : option (list message)) :
  let hist := match conversation_history with Some l => l | None => [] end in
  exists sys older window,
    format_messages system_prompt user_message ctx conversation_history
    = mk_message "system" sys :: (window ++ [mk_message "user" user_message])%list /\
    hist = (older ++ window)%list /\
    length window = Nat.min 5 (length hist).
Proof.
  cbv zeta. unfold format_messages.
  destruct conversation_history as [[|m0 l]|].
  - do 3 eexists. split; [reflexivity|]. split; [instantiate (1 := []); reflexivity|].
    reflexivity.
  - set (h := m0 :: l).
    exists (if truthy_opt_str ctx
            then match ctx with
                 | Some c => system_prompt ++ "

# 참고 정보
" ++ c
                 | None => system_prompt
                 end
            else system_prompt).
    exists (firstn (length h - 5) h), (skipn (length h - 5) h).
    unfold py_slice_from. fold h.
    replace ((0 <=? -5)%Z) with false by reflexivity.
    assert (E : forall n, Z.to_nat (Z.of_nat n + -5) = (n - 5)%nat) by lia.
    rewrite E. split; [reflexivity|split].
    + symmetry. apply firstn_skipn.
    + rewrite length_skipn. subst h. cbn [length]. lia.
  - do 3 eexists. split; [reflexivity|]. split; [instantiate (1 := []); reflexivity|].
    reflexivity.
Qed.

(* ------------------------------------------------------------------ *)
(** ** Persistence *)

(** Claim C6: saving a store and loading the file back, into the same
    store or into a fresh store for the same path, gives back exactly the
    same document list and embedding matrix, paired as before. *)
Theorem save_load_roundtrip (db : simple_vector_db) (fs : filesystem) :
  load db (save db fs) = Ok (true, db) /\
  load (new_simple_vector_db (db_path db)) (save db fs) = Ok (true, db).
Proof.
  unfold load, save, fs_write, new_simple_vector_db. simpl.
  rewrite String.eqb_refl. destruct db. split; reflexivity.
Qed.

(** Claim C7 (as amended): [load] on a missing file raises nothing: it
    returns [False] and leaves the store as it was, so a freshly created
    store stays empty (no documents, no embeddings); on a corrupt file
    (bytes that are not a pickle, or a pickle without the "documents" key)
    [load] raises. *)
Theorem load_missing_or_corrupt (db : simple_vector_db) (fs : filesystem) :
  (fs (db_path db) = None ->
   load db fs = Ok (false, db) /\
   load (new_simple_vector_db (db_path db)) fs
   = Ok (false, mk_db (db_path db) [] None)) /\
  (forall raw, fs (db_path db) = Some (Garbage raw) ->
   load db fs = Raise (UnpicklingError "invalid load key")) /\
  (forall kvs, fs (db_path db) = Some (Pickled (VDict kvs)) ->
   find (fun kv => String.eqb (fst kv) "documents") kvs = None ->
   load db fs = Raise (KeyError "documents")).
Proof.
  split; [|split].
  - intros H. unfold load, new_simple_vector_db. simpl. rewrite H. split; reflexivity.
  - intros raw H. unfold load. rewrite H. reflexivity.
  - intros kvs H Hk. unfold load. rewrite H. simpl. rewrite Hk. reflexivity.
Qed.

Lemma load_missing_or_corrupt_witness :
  fs_empty "data/processed/vector_db.pkl" = None /\
  load (new_simple_vector_db "data/processed/vector_db.pkl") fs_empty
  = Ok (false, mk_db "data/processed/vector_db.pkl" [] None).
Proof.
  assert (H : fs_empty "data/processed/vector_db.pkl" = None) by reflexivity.
  split; [exact H|].
  destruct (load_missing_or_corrupt (new_simple_vector_db "data/processed/vector_db.pkl")
              fs_empty) as [Hm _].
  apply (Hm H).
Defined.

(** Counterexample to claim C7: a backing file that is not a pickle makes
    [load] raise instead of leaving an empty store. *)
Lemma load_corrupt_raises :
  load (new_simple_vector_db "data/processed/vector_db.pkl")
       (fun _ => Some (Garbage ["0"%char]))
  = Raise (UnpicklingError "invalid load key").
Proof. reflexivity. Qed.

(* ------------------------------------------------------------------ *)
(** ** Further properties: the store file and the store singleton *)

(** [load] is [load_state] without the store object left on an error. *)
Lemma load_load_state (db : simple_vector_db) (fs : filesystem) :
  load db fs = match load_state db fs with
               | (db', Ok b) => Ok (b, db')
               | (_, Raise e) => Raise e
               end.
Proof.
  unfold load, load_state. destruct (fs (db_path db)) as [b|]; [|reflexivity].
  destruct (pickle_load b) as [data|e]; simpl; [|reflexivity].
  destruct (py_getitem data "documents") as [dv|e]; simpl; [|reflexivity].
  destruct (as_documents dv) as [ds|e]; simpl; [|reflexivity].
  destruct (py_getitem data "embeddings") as [ev|e]; simpl; [|reflexivity].
  destruct (as_embeddings ev) as [emb|e]; reflexivity.
Qed.

(** [insert_documents] replaces the documents and the embeddings (it
    does not append) and writes them out: any store object with the same
    path that loads the file afterwards gets exactly them, [load]
    returning [True]. *)
Theorem insert_documents_load (db : simple_vector_db) (ds : list document)
  (emb : matrix) (fs : filesystem) (db2 : simple_vector_db) :
  db_path db2 = db_path db ->
  fst (insert_documents db ds emb fs) = mk_db (db_path db) ds (Some emb) /\
  load db2 (snd (insert_documents db ds emb fs))
  = Ok (true, mk_db (db_path db) ds (Some emb)).
Proof.
  intros Hp. unfold insert_documents, load, save, fs_write. simpl.
  rewrite Hp, String.eqb_refl. split; reflexivity.
Qed.

Lemma insert_documents_load_witness :
  db_path (new_simple_vector_db (db_path db_tie)) = db_path db_tie /\
  load (new_simple_vector_db (db_path db_tie))
       (snd (insert_documents db_tie [doc1] [[1; 0]] (save db_tie fs_empty)))
  = Ok (true, mk_db (db_path db_tie) [doc1] (Some [[1; 0]])).
Proof.
  assert (Hp : db_path (new_simple_vector_db (db_path db_tie)) = db_path db_tie)
    by reflexivity.
  split; [exact Hp|].
  exact (proj2 (insert_documents_load db_tie [doc1] [[1; 0]] (save db_tie fs_empty) _ Hp)).
Defined.

(** [get_simple_vector_db]: once a call has returned a store, every later
    call returns that same store without reading the file again, whatever
    the file holds by then; the store returned first is what [load] made
    of the file. *)
Theorem get_simple_vector_db_cached (fs fs2 : filesystem)
  (g' : option simple_vector_db) (db : simple_vector_db) :
  get_simple_vector_db None fs = (g', Ok db) ->
  g' = Some db /\
  get_simple_vector_db g' fs2 = (g', Ok db) /\
  exists b, load (new_simple_vector_db DEFAULT_DB_PATH) fs = Ok (b, db).
Proof.
  unfold get_simple_vector_db. intros H.
  destruct (load_state (new_simple_vector_db DEFAULT_DB_PATH) fs) as [db' [b|e]] eqn:E;
    simpl in H; inversion H; subst.
  split; [reflexivity|]. split; [reflexivity|].
  exists b. rewrite load_load_state, E. reflexivity.
Qed.

Lemma get_simple_vector_db_cached_witness :
  get_simple_vector_db None fs_empty
  = (Some (new_simple_vector_db DEFAULT_DB_PATH), Ok (new_simple_vector_db DEFAULT_DB_PATH)) /\
  get_simple_vector_db (Some (new_simple_vector_db DEFAULT_DB_PATH)) (save db_three fs_empty)
  = (Some (new_simple_vector_db DEFAULT_DB_PATH), Ok (new_simple_vector_db DEFAULT_DB_PATH)).
Proof.
  assert (H : get_simple_vector_db None fs_empty
              = (Some (new_simple_vector_db DEFAULT_DB_PATH),
                 Ok (new_simple_vector_db DEFAULT_DB_PATH))) by reflexivity.
  split; [exact H|].
  exact (proj1 (proj2 (get_simple_vector_db_cached fs_empty (save db_three fs_empty) _ _ H))).
Defined.

(** [get_simple_vector_db]: when the first call raises (the global is
    already set), every later call returns the store as [load] left it,
    without raising and without reading the file; with a store file that
    is not a pickle, the first call raises [UnpicklingError] and the later
    ones return the empty store. *)
Theorem get_simple_vector_db_after_error :
  (forall fs g' e, get_simple_vector_db None fs = (g', Raise e) ->
     exists db, g' = Some db /\ forall fs2, get_simple_vector_db g' fs2 = (g', Ok db)) /\
  (forall fs raw, fs DEFAULT_DB_PATH = Some (Garbage raw) ->
     get_simple_vector_db None fs
     = (Some (new_simple_vector_db DEFAULT_DB_PATH), Raise (UnpicklingError "invalid load key")) /\
     documents (new_simple_vector_db DEFAULT_DB_PATH) = [] /\
     embeddings (new_simple_vector_db DEFAULT_DB_PATH) = None).
Proof.
  split.
  - intros fs g' e. unfold get_simple_vector_db.
    destruct (load_state (new_simple_vector_db DEFAULT_DB_PATH) fs) as [db' r].
    intros H. inversion H; subst. exists db'. split; reflexivity.
  - intros fs raw H. unfold get_simple_vector_db, load_state. simpl.
    rewrite H. split; [reflexivity|split; reflexivity].
Qed.

(* ------------------------------------------------------------------ *)
(** ** Further properties: initialising the RAG service *)

(** [SimpleRAGService.initialize] does nothing on an initialised service.
    On one that is not, with the model loaded: a missing store file does
    not stop it (the store stays as it was), a file written by [save]
    fills the store; either way the service ends initialised, and the
    generator flag is set when the client has a non-empty key (it is never
    cleared). *)
Theorem rag_initialize_outcome (load_model : result unit) (fs : filesystem)
  (st : rag_service) :
  (rag_initialized st = true -> rag_initialize_st load_model fs st = (st, Ok tt)) /\
  (rag_initialized st = false -> load_model = Ok tt ->
   fs (db_path (vector_db st)) = None ->
   rag_initialize_st load_model fs st
   = (mk_rag_service true
        (truthy_opt_str (api_key (openrouter st)) || openrouter_available st)
        (vector_db st) (openrouter st), Ok tt)) /\
  (forall db', rag_initialized st = false -> load_model = Ok tt ->
   db_path db' = db_path (vector_db st) ->
   rag_initialize_st load_model (save db' fs) st
   = (mk_rag_service true
        (truthy_opt_str (api_key (openrouter st)) || openrouter_available st)
        db' (openrouter st), Ok tt)).
Proof.
  split; [|split].
  - intros H. unfold rag_initialize_st. rewrite H. reflexivity.
  - intros H Hm Hf. unfold rag_initialize_st, load_state. rewrite H, Hm, Hf.
    destruct (truthy_opt_str (api_key (openrouter st))); reflexivity.
  - intros db' H Hm Hp. unfold rag_initialize_st, load_state, save, fs_write.
    rewrite H, Hm. simpl. rewrite <- Hp, String.eqb_refl. simpl.
    destruct db' as [p ds e]. simpl.
    destruct (truthy_opt_str (api_key (openrouter st))); reflexivity.
Qed.

(** [SimpleRAGService.initialize]: when it raises, the error is the one
    of the model load or of the store's [load], the service stays
    uninitialised (so the next call tries again) and its generator flag
    is unchanged. *)
Theorem rag_initialize_failure (load_model : result unit) (fs : filesystem)
  (st : rag_service) (e : exn) :
  snd (rag_initialize_st load_model fs st) = Raise e ->
  rag_initialized (fst (rag_initialize_st load_model fs st)) = false /\
  openrouter_available (fst (rag_initialize_st load_model fs st)) = openrouter_available st /\
  (load_model = Raise e \/ snd (load_state (vector_db st) fs) = Raise e).
Proof.
  unfold rag_initialize_st.
  destruct (rag_initialized st) eqn:Ei; [simpl; discriminate|].
  destruct load_model as [u|e'].
  - remember (load_state (vector_db st) fs) as X eqn:E.
    destruct X as [db' r].
    destruct r as [b|e2]; simpl; [discriminate|].
    intros H. inversion H; subst. split; [reflexivity|]. split; [reflexivity|].
    right. reflexivity.
  - simpl. intros H. inversion H; subst. auto.
Qed.

Lemma rag_initialize_failure_witness :
  snd (rag_initialize_st (Ok tt) fs_garbage rag_fresh)
  = Raise (UnpicklingError "invalid load key") /\
  rag_initialized (fst (rag_initialize_st (Ok tt) fs_garbage rag_fresh)) = false.
Proof.
  assert (H : snd (rag_initialize_st (Ok tt) fs_garbage rag_fresh)
              = Raise (UnpicklingError "invalid load key")) by reflexivity.
  split; [exact H|].
  exact (proj1 (rag_initialize_failure (Ok tt) fs_garbage rag_fresh _ H)).
Defined.

(** [SimpleRAGService.search_by_pawna] on an initialised service, with
    [top_k >= 0]: it never raises and needs no embeddings; it returns
    stored documents whose [pawna_code] is the given code, the first ones
    of the store in store order, [min(top_k, #matches)] of them, so all
    of them when [top_k] is at least their number. *)
Theorem search_by_pawna_spec (load_model : result unit) (fs : filesystem)
  (st : rag_service) (code : string) (k : Z) :
  rag_initialized st = true -> (0 <= k)%Z ->
  exists rs,
    search_by_pawna load_model fs st code k = (st, Ok rs) /\
    Forall (fun d => pawna_code d = code /\ In d (documents (vector_db st))) rs /\
    (exists rest, (rs ++ rest)%list
       = filter (fun d => String.eqb (pawna_code d) code) (documents (vector_db st))) /\
    length rs = Nat.min (Z.to_nat k)
      (length (filter (fun d => String.eqb (pawna_code d) code) (documents (vector_db st)))) /\
    ((length (filter (fun d => String.eqb (pawna_code d) code) (documents (vector_db st)))
      <= Z.to_nat k)%nat ->
     forall d, In d (documents (vector_db st)) -> pawna_code d = code -> In d rs).
Proof.
  intros Hi Hk. unfold search_by_pawna. rewrite Hi.
  unfold py_slice_to. replace ((0 <=? k)%Z) with true by (symmetry; apply Z.leb_le; exact Hk).
  set (all := filter (fun d => String.eqb (pawna_code d) code) (documents (vector_db st))).
  exists (firstn (Z.to_nat k) all). split; [reflexivity|]. split; [|split; [|split]].
  - apply Forall_forall. intros d Hd. apply In_firstn_In in Hd.
    unfold all in Hd. apply filter_In in Hd. destruct Hd as [Hin Heq].
    apply String.eqb_eq in Heq. auto.
  - exists (skipn (Z.to_nat k) all). apply firstn_skipn.
  - rewrite length_firstn. reflexivity.
  - intros Hlen d Hin Hc. rewrite firstn_all2 by exact Hlen.
    unfold all. apply filter_In. split; [exact Hin|]. apply String.eqb_eq. exact Hc.
Qed.

Lemma search_by_pawna_spec_witness :
  rag_initialized rag_with_key = true /\ (0 <= 1)%Z /\
  exists rs, search_by_pawna (Ok tt) fs_empty rag_with_key "WTIL" 1 = (rag_with_key, Ok rs) /\
             length rs = 1%nat.
Proof.
  assert (Hi : rag_initialized rag_with_key = true) by reflexivity.
  assert (Hk : (0 <= 1)%Z) by lia.
  split; [exact Hi|]. split; [exact Hk|].
  destruct (search_by_pawna_spec (Ok tt) fs_empty rag_with_key "WTIL" 1 Hi Hk)
    as [rs [Hrs [_ [_ [Hlen _]]]]].
  exists rs. split; [exact Hrs|]. rewrite Hlen. reflexivity.
Defined.

(* ------------------------------------------------------------------ *)
(** ** Further properties: the endpoints and the chatbot service *)

(** The [POST /chat] handler answers every request with the fixed apology,
    no sources and confidence 0: it calls
    [generate_response_with_context] with the keyword [dbti_type], which
    the method does not have, and catches the [TypeError]. *)
Theorem chat_endpoint_apology (format_2f : R -> string) (encode_text : string -> vector)
  (rag_initialize : rag_service -> result rag_service) (st : rag_service)
  (post : list message -> result json) (message : string) (dbti_type : option string) :
  chat_endpoint format_2f encode_text rag_initialize st post message dbti_type
  = Ok (mk_chat_response chat_apology [] 0).
Proof. reflexivity. Qed.

(** [ChatbotService.explain_dbti_type] never returns normally: once the
    chatbot is initialised it raises [AttributeError] on
    [search_by_dbti], which [SimpleRAGService] does not define; before
    that, initialisation errors pass through. *)
Theorem explain_dbti_type_raises
  (chatbot_initialize : chatbot_service -> result chatbot_service)
  (cb : chatbot_service) (dbti_code : string) (use_llm : bool) :
  is_raise (chatbot_explain_dbti_type chatbot_initialize cb dbti_code use_llm) = true /\
  (forall cb', (if cb_initialized cb then Ok cb else chatbot_initialize cb) = Ok cb' ->
   chatbot_explain_dbti_type chatbot_initialize cb dbti_code use_llm
   = Raise (AttributeError "'SimpleRAGService' object has no attribute 'search_by_dbti'")).
Proof.
  unfold chatbot_explain_dbti_type.
  destruct (if cb_initialized cb then Ok cb else chatbot_initialize cb) as [c|e];
    simpl; split; try reflexivity.
  intros cb' H. discriminate.
Qed.

(** [ChatbotService.generate_response] on a chatbot and a RAG service
    that are not initialised yet (the model loads): initialisation runs
    outside the [try], so a store file that is not a pickle makes the call
    raise [UnpicklingError] instead of returning the fallback reply;
    with no store file initialisation succeeds and the call returns the
    fallback reply for the keyword error of [retrieve_context]. *)
Theorem chatbot_init_error_escapes (encode_text : string -> vector)
  (load_model : result unit) (fs : filesystem) (cb : chatbot_service)
  (user_query : string) (dbti_type : option string)
  (history : option (list message)) (use_llm : bool) (llm_model : option string) :
  cb_initialized cb = false -> rag_initialized (cb_rag cb) = false ->
  load_model = Ok tt ->
  (forall raw, fs (db_path (vector_db (cb_rag cb))) = Some (Garbage raw) ->
   chatbot_generate_response encode_text (rag_initialize_fn load_model fs)
     (chatbot_initialize_fn load_model fs) cb user_query dbti_type history use_llm llm_model
   = Raise (UnpicklingError "invalid load key")) /\
  (fs (db_path (vector_db (cb_rag cb))) = None ->
   chatbot_generate_response encode_text (rag_initialize_fn load_model fs)
     (chatbot_initialize_fn load_model fs) cb user_query dbti_type history use_llm llm_model
   = Ok (chat_fallback retrieve_kw_error)).
Proof.
  intros Hc Hr Hm. split.
  - intros raw Hf. unfold chatbot_generate_response, chatbot_initialize_fn,
      rag_initialize_st, load_state.
    rewrite Hc, Hr, Hm, Hf. reflexivity.
  - intros Hf. unfold chatbot_generate_response, chatbot_initialize_fn,
      rag_initialize_st, load_state.
    rewrite Hc, Hr, Hm, Hf. reflexivity.
Qed.

Lemma chatbot_init_error_escapes_witness :
  cb_initialized chatbot_fresh = false /\ rag_initialized (cb_rag chatbot_fresh) = false /\
  chatbot_generate_response (fun _ => [1; 0]) (rag_initialize_fn (Ok tt) fs_garbage)
    (chatbot_initialize_fn (Ok tt) fs_garbage) chatbot_fresh "산책" (Some "WTIL") None true None
  = Raise (UnpicklingError "invalid load key").
Proof.
  assert (Hc : cb_initialized chatbot_fresh = false) by reflexivity.
  assert (Hr : rag_initialized (cb_rag chatbot_fresh) = false) by reflexivity.
  split; [exact Hc|]. split; [exact Hr|].
  apply (proj1 (chatbot_init_error_escapes (fun _ => [1; 0]) (Ok tt) fs_garbage chatbot_fresh
                  "산책" (Some "WTIL") None true None Hc Hr eq_refl) ["x"%char]).
  reflexivity.
Defined.

(* ------------------------------------------------------------------ *)
(** ** Further properties: the response composer *)

Lemma llm_branch_fields st post query pawna_type docs ctx r :
  llm_branch st post query pawna_type docs ctx = Ok r ->
  sources r = map (fun d => title (r_doc d)) docs /\
  num_sources r = length docs /\ context r = ctx /\
  llm_used r = true /\ model r = Some OPENROUTER_MODEL /\
  exists s, response r = format_response_with_sources s (map (fun d => title (r_doc d)) docs).
Proof.
  unfold llm_branch.
  destruct (chat_completion (openrouter st) post _) as [j|e]; simpl; [|discriminate].
  destruct (llm_reply_text j) as [s|e]; simpl; [|discriminate].
  intros H. inversion H; subst; simpl. repeat split; eauto.
Qed.

(** Whichever branch produces the text, the composer's response lists
    the titles of the retrieved documents in order as [sources], their
    number as [num_sources] and [format_context] of them as [context]; a
    response with [llm_used] false has the search-only text and no model,
    one with [llm_used] true names [settings.OPENROUTER_MODEL] and its
    text is a generated text followed by those titles as numbered
    sources. *)
Theorem compose_response_fields (format_2f : R -> string) (st : rag_service)
  (post : list message -> result json) (query : string)
  (pawna_type : option string) (use_llm : bool) (docs : list retrieved) :
  exists r,
    compose_response format_2f st post query pawna_type use_llm docs = Ok r /\
    sources r = map (fun d => title (r_doc d)) docs /\
    num_sources r = length docs /\
    context r = format_context format_2f docs /\
    (llm_used r = false -> response r = fallback_text docs pawna_type /\ model r = None) /\
    (llm_used r = true -> model r = Some OPENROUTER_MODEL /\
       exists s, response r = format_response_with_sources s
                                (map (fun d => title (r_doc d)) docs)).
Proof.
  unfold compose_response.
  destruct (use_llm && openrouter_available st && negb (Nat.eqb (length docs) 0))%bool.
  - unfold try_except.
    destruct (llm_branch st post query pawna_type docs (format_context format_2f docs))
      as [r|e] eqn:E.
    + exists r. split; [reflexivity|].
      apply llm_branch_fields in E.
      destruct E as [Hs [Hn [Hctx [Hu [Hmod Hresp]]]]].
      split; [exact Hs|]. split; [exact Hn|]. split; [exact Hctx|].
      split; [intros Hf; congruence|]. intros _. split; [exact Hmod|exact Hresp].
    + eexists. split; [reflexivity|]. simpl.
      split; [reflexivity|]. split; [reflexivity|]. split; [reflexivity|].
      split; [intros _; split; reflexivity|]. discriminate.
  - eexists. split; [reflexivity|]. simpl.
    split; [reflexivity|]. split; [reflexivity|]. split; [reflexivity|].
    split; [intros _; split; reflexivity|]. discriminate.
Qed.

(** When generation is requested and available, documents were retrieved,
    the client has a key, and the provider answers the messages built from
    the system prompt, the context and the query with a body whose
    [choices[0].message.content] is the text [s], the composer returns [s]
    followed by the numbered titles, with [llm_used] true, the configured
    model, and the top score as confidence. *)
Theorem compose_llm_success (format_2f : R -> string) (st : rag_service)
  (post : list message -> result json) (query : string)
  (pawna_type : option string) (docs : list retrieved) (j : json) (s : string) :
  openrouter_available st = true -> docs <> [] ->
  truthy_opt_str (api_key (openrouter st)) = true ->
  post (format_messages (get_system_prompt pawna_type) query
          (Some (format_context format_2f docs)) None) = Ok j ->
  llm_reply_text j = Ok s ->
  compose_response format_2f st post query pawna_type true docs
  = Ok (mk_rag_response
          (format_response_with_sources s (map (fun d => title (r_doc d)) docs))
          (format_context format_2f docs) (map (fun d => title (r_doc d)) docs)
          (length docs) (top_score docs) true (Some OPENROUTER_MODEL)).
Proof.
  intros Ha Hd Hk Hp Hs. unfold compose_response. rewrite Ha.
  destruct docs as [|d rest]; [contradiction|].
  simpl andb. cbn [negb Nat.eqb length].
  unfold try_except, llm_branch, chat_completion. rewrite Hk, Hp. simpl bind.
  rewrite Hs. reflexivity.
Qed.

Lemma compose_llm_success_witness :
  openrouter_available rag_with_key = true /\ [mk_retrieved doc1 1] <> [] /\
  truthy_opt_str (api_key (openrouter rag_with_key)) = true /\
  llm_reply_text json_ok = Ok "Walk twice a day." /\
  llm_used (mk_rag_response
     (format_response_with_sources "Walk twice a day." ["Walk"])
     (format_context (fun _ => "1.00") [mk_retrieved doc1 1]) ["Walk"] 1 1 true
     (Some OPENROUTER_MODEL)) = true /\
  compose_response (fun _ => "1.00") rag_with_key post_ok "산책" None true [mk_retrieved doc1 1]
  = Ok (mk_rag_response
          (format_response_with_sources "Walk twice a day." ["Walk"])
          (format_context (fun _ => "1.00") [mk_retrieved doc1 1]) ["Walk"] 1 1 true
          (Some OPENROUTER_MODEL)).
Proof.
  assert (Ha : openrouter_available rag_with_key = true) by reflexivity.
  assert (Hd : [mk_retrieved doc1 1] <> []) by discriminate.
  assert (Hk : truthy_opt_str (api_key (openrouter rag_with_key)) = true) by reflexivity.
  assert (Hs : llm_reply_text json_ok = Ok "Walk twice a day.") by reflexivity.
  split; [exact Ha|]. split; [exact Hd|]. split; [exact Hk|]. split; [exact Hs|].
  split; [reflexivity|].
  exact (compose_llm_success (fun _ => "1.00") rag_with_key post_ok "산책" None
           [mk_retrieved doc1 1] json_ok "Walk twice a day." Ha Hd Hk eq_refl Hs).
Defined.

(** When generation is not requested, not available, or nothing was
    retrieved, the composer never calls the provider (its response does
    not depend on it) and returns the search-only text with [llm_used]
    false and no model. *)
Theorem compose_without_llm (format_2f : R -> string) (st : rag_service)
  (post post' : list message -> result json) (query : string)
  (pawna_type : option string) (use_llm : bool) (docs : list retrieved) :
  use_llm = false \/ openrouter_available st = false \/ docs = [] ->
  compose_response format_2f st post query pawna_type use_llm docs
  = compose_response format_2f st post' query pawna_type use_llm docs /\
  compose_response format_2f st post query pawna_type use_llm docs
  = Ok (mk_rag_response (fallback_text docs pawna_type) (format_context format_2f docs)
          (map (fun d => title (r_doc d)) docs) (length docs) (top_score docs) false None).
Proof.
  intros H.
  assert (Hc : (use_llm && openrouter_available st && negb (Nat.eqb (length docs) 0))%bool
               = false).
  { destruct H as [ -> | [ -> | -> ] ]; [reflexivity| |].
    - rewrite Bool.andb_false_r. reflexivity.
    - simpl. rewrite Bool.andb_false_r. reflexivity. }
  unfold compose_response. rewrite Hc. split; reflexivity.
Qed.

Lemma compose_without_llm_witness :
  (false = false \/ openrouter_available rag_with_key = false \/ [mk_retrieved doc1 1] = []) /\
  compose_response (fun _ => "1.00") rag_with_key post_ok "산책" None false [mk_retrieved doc1 1]
  = compose_response (fun _ => "1.00") rag_with_key post_timeout "산책" None false
      [mk_retrieved doc1 1].
Proof.
  assert (H : false = false \/ openrouter_available rag_with_key = false \/
              [mk_retrieved doc1 1] = []) by (left; reflexivity).
  split; [exact H|].
  exact (proj1 (compose_without_llm (fun _ => "1.00") rag_with_key post_ok post_timeout
                  "산책" None false [mk_retrieved doc1 1] H)).
Defined.

(* ------------------------------------------------------------------ *)
(** ** Further properties: prompts *)

Lemma str_app_assoc (a b c : string) : (a ++ b) ++ c = a ++ (b ++ c).
Proof. induction a as [|ch a IH]; simpl; [reflexivity|]. rewrite IH. reflexivity. Qed.

Lemma str_app_nil_r (a : string) : a ++ "" = a.
Proof. induction a as [|ch a IH]; simpl; [reflexivity|]. rewrite IH. reflexivity. Qed.

Lemma concat_empty_fold (l : list string) :
  String.concat "" l = fold_right String.append "" l.
Proof.
  induction l as [|x l IH]; [reflexivity|].
  destruct l as [|y l'].
  - simpl. rewrite str_app_nil_r. reflexivity.
  - change (x ++ "" ++ String.concat "" (y :: l') = x ++ fold_right String.append "" (y :: l')).
    rewrite IH. reflexivity.
Qed.

Lemma fold_append_init (l : list string) (init : string) :
  fold_right String.append init l = fold_right String.append "" l ++ init.
Proof.
  induction l as [|x l IH]; simpl; [reflexivity|]. rewrite IH, str_app_assoc. reflexivity.
Qed.

Lemma concat_map_nth {A} (f : A -> string) (l : list A) (i : nat) (x : A) :
  nth_error l i = Some x ->
  exists pre post, String.concat "" (map f l) = pre ++ f x ++ post.
Proof.
  intros H. apply nth_error_split in H. destruct H as [l1 [l2 [-> _]]].
  rewrite concat_empty_fold, map_app, fold_right_app. simpl.
  rewrite fold_append_init.
  exists (fold_right String.append "" (map f l1)), (fold_right String.append "" (map f l2)).
  reflexivity.
Qed.

(** [format_response_with_sources] keeps the response as a prefix and adds
    nothing when there are no sources; otherwise the added part lists the
    [i]-th source (from 0) on a line of its own numbered [i+1]. *)
Theorem format_response_with_sources_shape (response : string) (sources : list string) :
  exists suffix,
    format_response_with_sources response sources = response ++ suffix /\
    (suffix = "" <-> sources = []) /\
    (forall i s, nth_error sources i = Some s ->
       exists pre post, suffix = pre ++ string_of_nat (S i) ++ ". " ++ s ++ "
" ++ post).
Proof.
  destruct sources as [|s0 rest].
  - exists "". split; [simpl; rewrite str_app_nil_r; reflexivity|].
    split; [split; reflexivity|]. intros i s H. destruct i; discriminate.
  - eexists. split; [reflexivity|]. split; [split; discriminate|].
    intros i s H.
    assert (He : nth_error (enumerate_from 1 (s0 :: rest)) i = Some (S i, s)).
    { rewrite nth_error_enumerate_from, H. reflexivity. }
    destruct (concat_map_nth (fun p => string_of_nat (fst p) ++ ". " ++ snd p ++ "
") _ _ _ He) as [pre [post Hc]].
    rewrite Hc. simpl fst. simpl snd. rewrite !str_app_assoc.
    match goal with |- exists _ _, ?h ++ pre ++ _ = _ => exists (h ++ pre), post end.
    rewrite str_app_assoc. reflexivity.
Qed.

(** [get_system_prompt]: an empty type gives the same prompt as none;
    every prompt starts with the base prompt; a non-empty type [p] appends
    one fixed section around [p]. *)
Theorem get_system_prompt_shape :
  get_system_prompt (Some "") = get_system_prompt None /\
  (forall t, exists s, get_system_prompt t = get_system_prompt None ++ s) /\
  exists a b, forall p, p <> "" ->
    get_system_prompt (Some p) = get_system_prompt None ++ a ++ p ++ b.
Proof.
  assert (Hne : forall p, p <> "" ->
            get_system_prompt (Some p) = get_system_prompt None ++ "

## 사용자 정보
- 반려견 Pawna 유형: " ++ p ++ "
- 이 유형의 특성을 고려하여 맞춤형 답변 제공").
  { intros p Hp. unfold get_system_prompt, truthy_opt_str.
    destruct (String.eqb_spec p "") as [E|E]; [contradiction|]. reflexivity. }
  split; [reflexivity|]. split.
  - intros [p|]; [|exists ""; rewrite str_app_nil_r; reflexivity].
    destruct (String.eqb_spec p "") as [->|Hp];
      [exists ""; rewrite str_app_nil_r; reflexivity|].
    eexists. exact (Hne p Hp).
  - do 2 eexists. exact Hne.
Qed.

(* ------------------------------------------------------------------ *)
(** ** Further properties: the OpenRouter client *)

(** [OpenRouterClient(api_key)] keeps a non-empty key and otherwise takes
    the settings key; with the default (empty) settings key, a client
    created without a key refuses every completion call with [ValueError]
    before any request is made. *)
Theorem openrouter_client_init_key (settings_api_key : string) :
  (forall arg, truthy_opt_str arg = true ->
     api_key (openrouter_client_init arg settings_api_key) = arg) /\
  (forall arg, truthy_opt_str arg = false ->
     api_key (openrouter_client_init arg settings_api_key) = Some settings_api_key) /\
  (forall arg post messages, truthy_opt_str arg = false ->
     chat_completion (openrouter_client_init arg OPENROUTER_API_KEY) post messages
     = Raise (ValueError "OpenRouter API 키가 설정되지 않았습니다.") /\
     forall post' model temperature max_tokens stream,
       chat_completion_full (openrouter_client_init arg OPENROUTER_API_KEY) post' messages
         model temperature max_tokens stream
       = Raise (ValueError "OpenRouter API 키가 설정되지 않았습니다.")).
Proof.
  split; [|split].
  - intros arg H. unfold openrouter_client_init. rewrite H. reflexivity.
  - intros arg H. unfold openrouter_client_init. rewrite H. reflexivity.
  - intros arg post messages H. unfold openrouter_client_init. rewrite H.
    split; [reflexivity|]. intros. reflexivity.
Qed.

(** With a key, [chat_completion(stream=True)] always raises [TypeError]
    (it awaits an async generator); a non-streaming call sends one request
    whose payload has the model name mapped through [self.models], the
    messages, the temperature, the token limit and [stream=False], and
    returns the provider's answer unchanged; the configured default model
    is sent as ["openai/gpt-4o-mini"]. *)
Theorem chat_completion_full_request (client : openrouter_client)
  (post : payload -> result json) (messages : list message) (model : option string)
  (temperature : R) (max_tokens : Z) :
  truthy_opt_str (api_key client) = true ->
  chat_completion_full client post messages model temperature max_tokens true
  = Raise (TypeError "object async_generator can't be used in 'await' expression") /\
  chat_completion_full client post messages model temperature max_tokens false
  = post (mk_payload (models_get model) messages temperature max_tokens false) /\
  (forall p, chat_completion client p messages
     = chat_completion_full client (fun _ => p messages) messages model temperature
         max_tokens false) /\
  models_get (Some OPENROUTER_MODEL) = Some "openai/gpt-4o-mini".
Proof.
  intros H. unfold chat_completion_full, chat_completion. rewrite H. simpl.
  split; [reflexivity|]. split; [reflexivity|]. split; reflexivity.
Qed.

Lemma chat_completion_full_request_witness :
  truthy_opt_str (api_key (mk_client (Some "key"))) = true /\
  chat_completion_full (mk_client (Some "key")) (fun _ => Ok json_ok) [] (Some "claude")
    (7/10) 1000%Z true
  = Raise (TypeError "object async_generator can't be used in 'await' expression").
Proof.
  assert (H : truthy_opt_str (api_key (mk_client (Some "key"))) = true) by reflexivity.
  split; [exact H|].
  exact (proj1 (chat_completion_full_request (mk_client (Some "key")) (fun _ => Ok json_ok)
                  [] (Some "claude") (7/10) 1000%Z H)).
Defined.
